(** * memories-client: navigation policy and update gate

    A shallow embedding of the decision logic of the richest variant of
    [App.tsx] (the one with the update check; the variant without it has
    the same intercept callback): [normalizeTag],
    [fetchUpdateInfo], the update-check effect, the render rule, the host
    classifier [isExternalToBase], the navigation-intercept callback
    [onShouldStartLoadWithRequest] and the listener
    [onNavigationStateChange]; and, in [Legacy], the policy of the oldest
    variant.

    Conventions.
    - A JavaScript string is a [string]: one [ascii] per UTF-16 code unit,
      for code units below 256.
    - A value of type [any] is a [JsVal].
    - [new URL(s)] belongs to the platform, not to the repository: it is a
      parameter [parseURL] of the navigation section ([None] when the
      constructor throws).
    - [fetch] is the one suspension point of the update check: a computation
      that awaits it is an [Async] tree, run against a network oracle. *)

From Stdlib Require Import String Ascii List Bool NArith ZArith Lia.
From Stdlib Require Import DecimalString.
Import ListNotations.

Open Scope string_scope.
Open Scope bool_scope.

Set Warnings "-register-all".

(** ** JavaScript strings *)

Module JsString.

(** [s.startsWith(p)] *)
Fixpoint startsWith (s p : string) {struct p} : bool :=
  match p with
  | EmptyString => true
  | String a p' =>
      match s with
      | EmptyString => false
      | String b s' => Ascii.eqb a b && startsWith s' p'
      end
  end.

(** [s.includes(p)] *)
Fixpoint includes (s p : string) : bool :=
  startsWith s p ||
  match s with
  | EmptyString => false
  | String _ r => includes r p
  end.

(** WhiteSpace and LineTerminator code units below 256:
    TAB, LF, VT, FF, CR, SPACE and NBSP. *)
Definition isWhite (c : ascii) : bool :=
  let n := N_of_ascii c in
  (((9 <=? n) && (n <=? 13)) || (n =? 32) || (n =? 160))%N.

Fixpoint trimStart (s : string) : string :=
  match s with
  | EmptyString => EmptyString
  | String c r => if isWhite c then trimStart r else s
  end.

Fixpoint trimEnd (s : string) : string :=
  match s with
  | EmptyString => EmptyString
  | String c r =>
      match trimEnd r with
      | EmptyString => if isWhite c then EmptyString else String c EmptyString
      | r' => String c r'
      end
  end.

(** [s.trim()] *)
Definition trim (s : string) : string := trimEnd (trimStart s).

(** Lower-casing of one code unit below 256: A-Z, and the Latin-1 capitals
    U+00C0..U+00DE except the multiplication sign U+00D7. *)
Definition lowerChar (c : ascii) : ascii :=
  let n := N_of_ascii c in
  if (((65 <=? n) && (n <=? 90)) ||
      ((192 <=? n) && (n <=? 222) && negb (n =? 215)))%N
  then ascii_of_N (n + 32) else c.

(** [s.toLowerCase()] *)
Fixpoint toLowerCase (s : string) : string :=
  match s with
  | EmptyString => EmptyString
  | String c r => String (lowerChar c) (toLowerCase r)
  end.

(** [String(n)] for a non-negative integer. *)
Definition ofN (n : N) : string := NilZero.string_of_uint (N.to_uint n).

(** [xs.includes(x)] on an array of strings. *)
Definition arrayIncludes (xs : list string) (x : string) : bool :=
  existsb (String.eqb x) xs.

End JsString.

Import JsString.

(** ** Values of type [any] *)

Inductive JsVal : Type :=
| JUndefined
| JNull
| JBool (b : bool)
| JNum (n : Z)
| JStr (s : string)
| JArr (items : list JsVal)
| JObj (fields : list (string * JsVal)).

Module Js.

Fixpoint lookup (k : string) (fs : list (string * JsVal)) : JsVal :=
  match fs with
  | [] => JUndefined
  | (k', v) :: r => if String.eqb k k' then v else lookup k r
  end.

(** [v?.k] for the property names this program reads ([url], [isTopFrame],
    [message], [requiredVersion], [apkUrl], [extra], ...): none of them is
    a property of a primitive or of an array, so only an object can hold
    one. *)
Definition getProp (v : JsVal) (k : string) : JsVal :=
  match v with
  | JObj fs => lookup k fs
  | _ => JUndefined
  end.

(** Truthiness, as [||] and [?:] test it. *)
Definition truthy (v : JsVal) : bool :=
  match v with
  | JUndefined | JNull => false
  | JBool b => b
  | JNum n => negb (Z.eqb n 0)
  | JStr s => negb (String.eqb s "")
  | JArr _ | JObj _ => true
  end.

(** [a || b] *)
Definition or (a b : JsVal) : JsVal := if truthy a then a else b.

(** [new Error(msg)], as far as the program looks at it. *)
Definition Error (msg : string) : JsVal := JObj [("message", JStr msg)].

End Js.

(** ** Version tags *)

Definition normalizeTag (t : string) : string :=
  let s := trim t in
  if startsWith s "v" then s else "v" ++ s.

(** ** The update check: data *)

Record ClientUpdateInfo : Type := {
  requiredVersion : option string;   (* string | null *)
  apkUrl : option string             (* string | null *)
}.

(** The outcome of an [await]: a value, or a thrown value. *)
Inductive Result (A : Type) : Type :=
| Ok (a : A)
| Throw (e : JsVal).
Arguments Ok {A} a.
Arguments Throw {A} e.

(** What the program reads of a fetch [Response]: its [status], and what
    [await res.json()] settles to. *)
Record Response : Type := {
  status : N;
  json : Result JsVal
}.

(** [res.ok]: the status is in the range 200-299. *)
Definition ok (res : Response) : bool :=
  ((200 <=? status res) && (status res <=? 299))%N.

Record Request : Type := {
  reqUrl : string;
  reqHeaders : list (string * string)
}.

(** A computation that may await [fetch]. *)
Inductive Async (A : Type) : Type :=
| Ret (a : A)
| Fetch (rq : Request) (k : Result Response -> Async A).
Arguments Ret {A} a.
Arguments Fetch {A} rq k.

Fixpoint bind {A B : Type} (m : Async A) (f : A -> Async B) : Async B :=
  match m with
  | Ret a => f a
  | Fetch rq k => Fetch rq (fun r => bind (k r) f)
  end.

Notation "x <- m ;; f" := (bind m (fun x => f))
  (at level 61, m at next level, right associativity).

(** Running a computation against the network: the final value and the
    requests issued, in order. *)
Fixpoint run {A : Type} (net : Request -> Result Response) (m : Async A)
  : A * list Request :=
  match m with
  | Ret a => (a, [])
  | Fetch rq k => let '(a, log) := run net (k (net rq)) in (a, rq :: log)
  end.

(** ** Build-time configuration *)

Definition BASE_URL : string := "https://maybe-someone-saw.vercel.app/".

Definition ALLOWED_HOSTS : list string :=
  ["maybe-someone-saw.vercel.app"; "open.spotify.com"; "spotify.com";
   "accounts.spotify.com"].

(** [s.replace(/\/$/, '')] *)
Fixpoint dropTrailingSlash (s : string) : string :=
  match s with
  | EmptyString => EmptyString
  | String c r =>
      match r with
      | EmptyString => if Ascii.eqb c "/" then EmptyString else s
      | _ => String c (dropTrailingSlash r)
      end
  end.

Definition CLIENT_UPDATE_URL : string :=
  dropTrailingSlash BASE_URL ++ "/api/client/update".

(** The [extra] record of the Expo constants: the first truthy one of four
    places, else the empty object. *)
Definition extraOf (Constants : JsVal) : JsVal :=
  Js.or (Js.getProp (Js.getProp Constants "expoConfig") "extra")
   (Js.or (Js.getProp (Js.getProp Constants "expoGoConfig") "extra")
     (Js.or (Js.getProp (Js.getProp Constants "manifest") "extra")
       (Js.or (Js.getProp (Js.getProp Constants "manifest2") "extra")
              (JObj [])))).

Definition clientSecret (Constants : JsVal) : string :=
  match Js.getProp (extraOf Constants) "MV_CLIENT_SECRET" with
  | JStr s => s
  | _ => ""
  end.

Definition localReleaseTag (Constants : JsVal) : string :=
  let t := match Js.getProp (extraOf Constants) "RELEASE_TAG" with
           | JStr s => s
           | _ => ""
           end in
  if String.eqb t "" then "" else normalizeTag t.

(** ** The update check: [fetchUpdateInfo] *)

Definition updateHeaders (secret : string) : list (string * string) :=
  ("accept", "application/json") ::
  (if String.eqb secret "" then [] else [("x-mv-client", secret)]).

Definition fetchUpdateInfo (secret : string) : Async (Result ClientUpdateInfo) :=
  Fetch {| reqUrl := CLIENT_UPDATE_URL; reqHeaders := updateHeaders secret |}
    (fun r =>
       Ret match r with
           | Throw e => Throw e
           | Ok res =>
               if negb (ok res)
               then Throw (Js.Error ("update_check_failed:" ++ ofN (status res)))
               else
                 match json res with
                 | Throw e => Throw e
                 | Ok data =>
                     Ok {| requiredVersion :=
                             match Js.getProp data "requiredVersion" with
                             | JStr s => Some (normalizeTag s)
                             | _ => None
                             end;
                           apkUrl :=
                             match Js.getProp data "apkUrl" with
                             | JStr s => Some s
                             | _ => None
                             end |}
                 end
           end).

(** ** The shell's state: the [useState] cells of [App] *)

Record ShellState : Type := {
  loading : bool;
  refreshing : bool;
  hasError : bool;
  errorDetail : string;
  checkingUpdate : bool;
  updateRequired : bool;
  updateInfo : option ClientUpdateInfo;
  updateError : string;
  downloadingUpdate : bool;
  downloadProgress : Z * Z      (* written / total, as a fraction *)
}.

Definition initialState : ShellState := {|
  loading := true;
  refreshing := false;
  hasError := false;
  errorDetail := "";
  checkingUpdate := true;
  updateRequired := false;
  updateInfo := None;
  updateError := "";
  downloadingUpdate := false;
  downloadProgress := (0%Z, 1%Z)
|}.

Definition setLoading (b : bool) (s : ShellState) : ShellState :=
  {| loading := b; refreshing := refreshing s; hasError := hasError s;
     errorDetail := errorDetail s; checkingUpdate := checkingUpdate s;
     updateRequired := updateRequired s; updateInfo := updateInfo s;
     updateError := updateError s; downloadingUpdate := downloadingUpdate s;
     downloadProgress := downloadProgress s |}.

Definition setRefreshing (b : bool) (s : ShellState) : ShellState :=
  {| loading := loading s; refreshing := b; hasError := hasError s;
     errorDetail := errorDetail s; checkingUpdate := checkingUpdate s;
     updateRequired := updateRequired s; updateInfo := updateInfo s;
     updateError := updateError s; downloadingUpdate := downloadingUpdate s;
     downloadProgress := downloadProgress s |}.

Definition setHasError (b : bool) (s : ShellState) : ShellState :=
  {| loading := loading s; refreshing := refreshing s; hasError := b;
     errorDetail := errorDetail s; checkingUpdate := checkingUpdate s;
     updateRequired := updateRequired s; updateInfo := updateInfo s;
     updateError := updateError s; downloadingUpdate := downloadingUpdate s;
     downloadProgress := downloadProgress s |}.

Definition setErrorDetail (d : string) (s : ShellState) : ShellState :=
  {| loading := loading s; refreshing := refreshing s; hasError := hasError s;
     errorDetail := d; checkingUpdate := checkingUpdate s;
     updateRequired := updateRequired s; updateInfo := updateInfo s;
     updateError := updateError s; downloadingUpdate := downloadingUpdate s;
     downloadProgress := downloadProgress s |}.

Definition setCheckingUpdate (b : bool) (s : ShellState) : ShellState :=
  {| loading := loading s; refreshing := refreshing s; hasError := hasError s;
     errorDetail := errorDetail s; checkingUpdate := b;
     updateRequired := updateRequired s; updateInfo := updateInfo s;
     updateError := updateError s; downloadingUpdate := downloadingUpdate s;
     downloadProgress := downloadProgress s |}.

Definition setUpdateRequired (b : bool) (s : ShellState) : ShellState :=
  {| loading := loading s; refreshing := refreshing s; hasError := hasError s;
     errorDetail := errorDetail s; checkingUpdate := checkingUpdate s;
     updateRequired := b; updateInfo := updateInfo s;
     updateError := updateError s; downloadingUpdate := downloadingUpdate s;
     downloadProgress := downloadProgress s |}.

Definition setUpdateInfo (i : option ClientUpdateInfo) (s : ShellState)
  : ShellState :=
  {| loading := loading s; refreshing := refreshing s; hasError := hasError s;
     errorDetail := errorDetail s; checkingUpdate := checkingUpdate s;
     updateRequired := updateRequired s; updateInfo := i;
     updateError := updateError s; downloadingUpdate := downloadingUpdate s;
     downloadProgress := downloadProgress s |}.

Definition setUpdateError (m : string) (s : ShellState) : ShellState :=
  {| loading := loading s; refreshing := refreshing s; hasError := hasError s;
     errorDetail := errorDetail s; checkingUpdate := checkingUpdate s;
     updateRequired := updateRequired s; updateInfo := updateInfo s;
     updateError := m; downloadingUpdate := downloadingUpdate s;
     downloadProgress := downloadProgress s |}.

Definition setDownloadingUpdate (b : bool) (s : ShellState) : ShellState :=
  {| loading := loading s; refreshing := refreshing s; hasError := hasError s;
     errorDetail := errorDetail s; checkingUpdate := checkingUpdate s;
     updateRequired := updateRequired s; updateInfo := updateInfo s;
     updateError := updateError s; downloadingUpdate := b;
     downloadProgress := downloadProgress s |}.

Definition setDownloadProgress (p : Z * Z) (s : ShellState) : ShellState :=
  {| loading := loading s; refreshing := refreshing s; hasError := hasError s;
     errorDetail := errorDetail s; checkingUpdate := checkingUpdate s;
     updateRequired := updateRequired s; updateInfo := updateInfo s;
     updateError := updateError s; downloadingUpdate := downloadingUpdate s;
     downloadProgress := p |}.

(** ** The update-check effect

    [alive] is the value of the effect's flag when the awaited fetch
    settles: [false] once the component has been unmounted.  Before the
    await the flag cannot have been cleared yet. *)

(** [typeof e?.message === 'string' ? e.message : 'update_check_failed'] *)
Definition errorMessage (fallback : string) (e : JsVal) : string :=
  match Js.getProp e "message" with
  | JStr m => m
  | _ => fallback
  end.

Definition updateCheck (alive : bool) (secret tag : string) (s : ShellState)
  : Async ShellState :=
  let finally (s : ShellState) :=
    if negb alive then s else setCheckingUpdate false s in
  let s := setUpdateError "" (setCheckingUpdate true s) in
  if String.eqb tag "" then
    (* no embedded tag: do not block; the [finally] clause runs on the way out *)
    Ret (setCheckingUpdate false
           (setCheckingUpdate false (setUpdateRequired false s)))
  else
    r <- fetchUpdateInfo secret ;;
    Ret match r with
        | Ok info =>
            if negb alive then finally s
            else
              let s := setUpdateInfo (Some info) s in
              let required :=
                match requiredVersion info with
                | Some v => if String.eqb v "" then "" else normalizeTag v
                | None => ""
                end in
              if String.eqb required "" then
                finally (setUpdateRequired false s)
              else
                let needsUpdate := negb (String.eqb required tag) in
                finally (setUpdateRequired needsUpdate s)
        | Throw e =>
            if negb alive then finally s
            else
              let msg := errorMessage "update_check_failed" e in
              finally (setUpdateError msg (setUpdateRequired true s))
        end.

(** ** The gate, read off the state, and the render rule *)

Inductive Gate : Type := CHECKING | NOT_REQUIRED | REQUIRED.

Definition gate (s : ShellState) : Gate :=
  if checkingUpdate s then CHECKING
  else if updateRequired s then REQUIRED
  else NOT_REQUIRED.

Inductive GatePanel : Type := CheckingPanel | UpdateRequiredPanel.
Inductive MainPanel : Type := ErrorPanel | WebViewPanel.

(** [checkingUpdate ? ... : updateRequired ? ... : null] *)
Definition renderGate (s : ShellState) : option GatePanel :=
  if checkingUpdate s then Some CheckingPanel
  else if updateRequired s then Some UpdateRequiredPanel
  else None.

(** [hasError ? ... : !checkingUpdate && !updateRequired ? <WebView/> : null] *)
Definition renderMain (s : ShellState) : option MainPanel :=
  if hasError s then Some ErrorPanel
  else if negb (checkingUpdate s) && negb (updateRequired s)
       then Some WebViewPanel
       else None.

Definition webViewMounted (s : ShellState) : bool :=
  match renderMain s with
  | Some WebViewPanel => true
  | _ => false
  end.

(** One start of the shell: the effect runs on the initial state. *)
Definition startup (Constants : JsVal) (net : Request -> Result Response)
  : ShellState * list Request :=
  run net (updateCheck true (clientSecret Constants)
             (localReleaseTag Constants) initialState).

(** ** The shell's handlers, as events on the state *)

(** [parts.filter(Boolean).join(' | ')] *)
Definition joinParts (parts : list string) : string :=
  match filter (fun p => negb (String.eqb p "")) parts with
  | [] => ""
  | p :: rest =>
      fold_left (fun acc q => acc ++ " | " ++ q) rest p
  end.

Definition labelled (label value : string) : string :=
  if String.eqb value "" then "" else label ++ value.

Definition stringField (v : JsVal) (k : string) : string :=
  match Js.getProp v k with
  | JStr s => s
  | _ => ""
  end.

(** [typeof v?.k === 'number' ? String(v.k) : ''], for integers. *)
Definition numberField (v : JsVal) (k : string) : string :=
  match Js.getProp v k with
  | JNum n => NilZero.string_of_int (Z.to_int n)
  | _ => ""
  end.

Definition webErrorDetail (e : JsVal) : string :=
  let ne := Js.getProp e "nativeEvent" in
  joinParts [labelled "code=" (numberField ne "code");
             labelled "desc=" (stringField ne "description");
             labelled "url=" (stringField ne "url")].

Definition httpErrorDetail (e : JsVal) : string :=
  let ne := Js.getProp e "nativeEvent" in
  joinParts [labelled "http=" (numberField ne "statusCode");
             labelled "desc=" (stringField ne "description");
             labelled "url=" (stringField ne "url")].

Inductive Event : Type :=
| UpdateCheckSettled (net : Request -> Result Response)
| LoadStart
| LoadEnd
| WebError (e : JsVal)
| HttpError (e : JsVal)
| Retry
| Refresh
| RefreshTimeout
| StartUpdate
| DownloadProgress (p : JsVal)
| DownloadSettled (r : Result unit).

Section Shell.

Variable Constants : JsVal.
Variable android : bool.      (* Platform.OS === 'android' *)

Definition onLoadStart (s : ShellState) : ShellState :=
  setErrorDetail "" (setHasError false (setLoading true s)).

Definition onLoadEnd (s : ShellState) : ShellState :=
  setRefreshing false (setLoading false s).

Definition onError (e : JsVal) (s : ShellState) : ShellState :=
  setRefreshing false
    (setLoading false (setHasError true (setErrorDetail (webErrorDetail e) s))).

Definition onHttpError (e : JsVal) (s : ShellState) : ShellState :=
  setRefreshing false
    (setLoading false (setHasError true (setErrorDetail (httpErrorDetail e) s))).

Definition retry (s : ShellState) : ShellState :=
  setLoading true (setErrorDetail "" (setHasError false s)).

Definition onRefresh (s : ShellState) : ShellState :=
  setErrorDetail "" (setHasError false (setRefreshing true s)).

(** The synchronous part of [startUpdate]. *)
Definition startUpdate (s : ShellState) : ShellState :=
  if negb android then s
  else
    match updateInfo s with
    | Some {| apkUrl := Some u |} =>
        if String.eqb u "" then setUpdateError "missing_apk_url" s
        else setDownloadProgress (0%Z, 1%Z)
               (setUpdateError "" (setDownloadingUpdate true s))
    | _ => setUpdateError "missing_apk_url" s
    end.

(** The progress callback of the download. *)
Definition onDownloadProgress (p : JsVal) (s : ShellState) : ShellState :=
  let total := match Js.getProp p "totalBytesExpectedToWrite" with
               | JNum n => n | _ => 0%Z end in
  let written := match Js.getProp p "totalBytesWritten" with
                 | JNum n => n | _ => 0%Z end in
  if (0 <? total)%Z then setDownloadProgress (written, total) s else s.

(** The [catch] and [finally] of [startUpdate]. *)
Definition onDownloadSettled (r : Result unit) (s : ShellState) : ShellState :=
  match r with
  | Ok _ => setDownloadingUpdate false s
  | Throw e =>
      setDownloadingUpdate false
        (setUpdateError (errorMessage "update_download_failed" e) s)
  end.

Definition handle (ev : Event) (s : ShellState) : ShellState :=
  match ev with
  | UpdateCheckSettled net =>
      fst (run net (updateCheck true (clientSecret Constants)
                      (localReleaseTag Constants) s))
  | LoadStart => onLoadStart s
  | LoadEnd => onLoadEnd s
  | WebError e => onError e s
  | HttpError e => onHttpError e s
  | Retry => retry s
  | Refresh => onRefresh s
  | RefreshTimeout => setRefreshing false s
  | StartUpdate => startUpdate s
  | DownloadProgress p => onDownloadProgress p s
  | DownloadSettled r => onDownloadSettled r s
  end.

(** An event can occur only while the element that raises it is on
    screen (or, for the asynchronous ones, while its operation is in
    flight). *)
Definition enabled (ev : Event) (s : ShellState) : bool :=
  match ev with
  | UpdateCheckSettled _ => checkingUpdate s
  | LoadStart | LoadEnd | WebError _ | HttpError _ | Refresh =>
      webViewMounted s
  | Retry => hasError s
  | RefreshTimeout => true
  | StartUpdate =>
      match renderGate s with
      | Some UpdateRequiredPanel => negb (downloadingUpdate s)
      | _ => false
      end
  | DownloadProgress _ | DownloadSettled _ => downloadingUpdate s
  end.

Inductive reachable : ShellState -> Prop :=
| reach_init : reachable initialState
| reach_step (s : ShellState) (ev : Event) :
    reachable s -> enabled ev s = true -> reachable (handle ev s).

End Shell.

(** ** Navigation policy *)

(** What the program reads of a parsed [URL]. *)
Record URL : Type := {
  host : string;
  pathname : string
}.

(** The verdict of the intercept callback, with the calls of [openExternal]
    it made. *)
Record Decision : Type := {
  allowInPlace : bool;
  dispatched : list string
}.

Definition allow : Decision := {| allowInPlace := true; dispatched := [] |}.

(** [void openExternal(url); return false;] *)
Definition veto (url : string) : Decision :=
  {| allowInPlace := false; dispatched := [url] |}.

(** The operating system's side of [openExternal]. *)
Inductive OsCall : Type :=
| CanOpenURL (url : string)
| OpenURL (url : string).

Definition OsCall_eq_dec (a b : OsCall) : {a = b} + {a <> b}.
Proof. decide equality; apply string_dec. Defined.

Definition openExternal (canOpen : string -> Result bool) (url : string)
  : list OsCall :=
  match canOpen url with
  | Ok true => [CanOpenURL url; OpenURL url]
  | Ok false | Throw _ => [CanOpenURL url]
  end.

(** [typeof req?.url === 'string' ? req.url : ''] *)
Definition requestUrl (req : JsVal) : string :=
  match Js.getProp req "url" with
  | JStr s => s
  | _ => ""
  end.

(** [typeof req?.isTopFrame === 'boolean' ? req.isTopFrame : true] *)
Definition requestIsTopFrame (req : JsVal) : bool :=
  match Js.getProp req "isTopFrame" with
  | JBool b => b
  | _ => true
  end.

Section Navigation.

(** [new URL(s)]: [None] when the constructor throws. *)
Variable parseURL : string -> option URL.

Definition baseHost : string :=
  match parseURL BASE_URL with
  | Some u => host u
  | None => ""
  end.

Definition isExternalToBase (url : string) : bool :=
  match parseURL url with
  | Some u =>
      if arrayIncludes ALLOWED_HOSTS (host u) then false
      else if negb (String.eqb baseHost "") && String.eqb (host u) baseHost
           then false
           else true
  | None => false
  end.

(** The [try] block of the http/https branch: does the partner rule veto? *)
Definition partnerVeto (url : string) : bool :=
  match parseURL url with
  | Some u =>
      let h := toLowerCase (host u) in
      (String.eqb h "open.spotify.com" || String.eqb h "spotify.com")
      && negb (startsWith (pathname u) "/embed/")
  | None => false
  end.

Definition onShouldStartLoadWithRequest (req : JsVal) : Decision :=
  let url := requestUrl req in
  if String.eqb url "" then allow
  else
    let isTopFrame := requestIsTopFrame req in
    if startsWith url "spotify:" || startsWith url "intent:" then veto url
    else if startsWith url "mailto:" || startsWith url "tel:"
            || startsWith url "sms:" then veto url
    else if startsWith url "http://" || startsWith url "https://" then
      if isTopFrame && partnerVeto url then veto url
      else if isTopFrame && isExternalToBase url then veto url
      else allow
    else allow.

(** The listener on completed navigations: the dispatches it makes. *)
Definition onNavigationStateChange (nav : JsVal) : list string :=
  let url := requestUrl nav in
  if String.eqb url "" then []
  else if startsWith url "mailto:" || startsWith url "tel:"
          || startsWith url "sms:" then [url]
  else [].

End Navigation.

(** A navigation request as the embedded browser raises it. *)
Definition request (url : string) (isTopFrame : JsVal) : JsVal :=
  JObj [("url", JStr url); ("isTopFrame", isTopFrame)].

(** ** A parser instance

    [PlainURL.parse] recognises absolute URLs that are already in normal
    form: [http(s)://host/path?query#fragment] with a host of letters,
    hyphens and dots, and [scheme:opaque] or [scheme://host/path] for other
    schemes.  On these it returns the [host] and [pathname] of the platform's
    URL object; every other string is rejected.  It is an instance on which
    the policy can be evaluated, not a model of the whole URL standard. *)

Module PlainURL.

Definition inRange (lo hi : N) (c : ascii) : bool :=
  ((lo <=? N_of_ascii c) && (N_of_ascii c <=? hi))%N.

Definition isAlpha (c : ascii) : bool := inRange 65 90 c || inRange 97 122 c.
Definition isDigit (c : ascii) : bool := inRange 48 57 c.

Definition oneOf (cs : string) (c : ascii) : bool :=
  existsb (Ascii.eqb c) (list_ascii_of_string cs).

Definition hostChar (c : ascii) : bool := isAlpha c || oneOf "-." c.
Definition pathChar (c : ascii) : bool :=
  isAlpha c || isDigit c || oneOf "/-_.~@+:=&," c.
Definition schemeChar (c : ascii) : bool :=
  isAlpha c || isDigit c || oneOf "+-." c.

Definition all (p : ascii -> bool) (s : string) : bool :=
  forallb p (list_ascii_of_string s).

(** The longest prefix of characters outside [stops], and what follows. *)
Fixpoint break (stops : string) (s : string) : string * string :=
  match s with
  | EmptyString => (EmptyString, EmptyString)
  | String c r =>
      if oneOf stops c then (EmptyString, s)
      else let '(a, b) := break stops r in (String c a, b)
  end.

Definition headIsAlpha (s : string) : bool :=
  match s with
  | String c _ => isAlpha c
  | EmptyString => false
  end.

(** [Some r] when [s] is [p] followed by [r]. *)
Fixpoint stripPrefix (p s : string) {struct p} : option string :=
  match p with
  | EmptyString => Some s
  | String a p' =>
      match s with
      | EmptyString => None
      | String b s' => if Ascii.eqb a b then stripPrefix p' s' else None
      end
  end.

Definition parse (s : string) : option URL :=
  let '(scheme, rest) := break ":" s in
  match rest with
  | EmptyString => None
  | String _ rest =>
      let scheme := toLowerCase scheme in
      if negb (headIsAlpha scheme && all schemeChar scheme) then None
      else if String.eqb scheme "http" || String.eqb scheme "https" then
        match stripPrefix "//" rest with
        | Some r =>
            let '(authority, tail) := break "/?#" r in
            let '(path, _) := break "?#" tail in
            if headIsAlpha authority && all hostChar authority
               && negb (includes (toLowerCase authority) "xn--")
               && all pathChar path && negb (includes path "/.")
            then Some {| host := toLowerCase authority;
                         pathname := if String.eqb path "" then "/" else path |}
            else None
        | None => None
        end
      else if existsb (String.eqb scheme) ["ftp"; "ws"; "wss"; "file"] then None
      else
        match stripPrefix "//" rest with
        | Some r =>
            let '(authority, tail) := break "/?#" r in
            let '(path, _) := break "?#" tail in
            if all hostChar authority
               && String.eqb (toLowerCase authority) authority
               && all pathChar path
            then Some {| host := authority; pathname := path |}
            else None
        | None =>
            if startsWith rest "/" then None
            else
              let '(path, _) := break "?#" rest in
              if all pathChar path
              then Some {| host := ""; pathname := path |}
              else None
        end
  end.

(** [parse], except that the host is returned as it is written, not in
    lower case as the platform's parser returns it: an instance on which the
    policy's own case handling can be observed. *)
Definition parseAsWritten (s : string) : option URL :=
  match parse s with
  | Some u =>
      let '(_, rest) := break ":" s in
      match stripPrefix "://" rest with
      | Some r =>
          let '(authority, _) := break "/?#" r in
          Some {| host := authority; pathname := pathname u |}
      | None => Some u
      end
  | None => None
  end.

End PlainURL.

(** ** The source of the embedded browser *)

(** [webSource]: the base address, with the client secret as a header when
    there is one. *)
Definition webSource (secret : string) : Request :=
  {| reqUrl := BASE_URL;
     reqHeaders :=
       if String.eqb secret "" then [] else [("x-mv-client", secret)] |}.

(** ** The installer download *)

(** [documentDirectory || cacheDirectory || ''] *)
Definition downloadDir (documentDirectory cacheDirectory : option string)
  : string :=
  match documentDirectory with
  | Some d => if String.eqb d "" then
                match cacheDirectory with Some c => c | None => "" end
              else d
  | None => match cacheDirectory with Some c => c | None => "" end
  end.

(** The file the installer is downloaded to:
    [`${baseDir}update-${localReleaseTag || 'latest'}.apk`]. *)
Definition installerPath (baseDir tag : string) : string :=
  baseDir ++ "update-" ++ (if String.eqb tag "" then "latest" else tag)
  ++ ".apk".

(** ** The oldest variant of the policy

    The first version of the shell knows no allow-list, no frame level and
    no application schemes: only the base host loads in place. *)

Module Legacy.

Section Policy.

Variable parseURL : string -> option URL.

Definition isExternalToBase (url : string) : bool :=
  match parseURL url with
  | Some u =>
      if String.eqb (baseHost parseURL) "" then false
      else negb (String.eqb (host u) (baseHost parseURL))
  | None => false
  end.

Definition onShouldStartLoadWithRequest (req : JsVal) : Decision :=
  let url := requestUrl req in
  if String.eqb url "" then allow
  else if startsWith url "mailto:" || startsWith url "tel:"
          || startsWith url "sms:" then veto url
  else if startsWith url "http://" || startsWith url "https://" then
    if isExternalToBase url then veto url else allow
  else allow.

End Policy.

End Legacy.

(** ** Vocabulary of the statements *)

(** The one request the update check issues. *)
Definition updateRequest (Constants : JsVal) : Request :=
  {| reqUrl := CLIENT_UPDATE_URL;
     reqHeaders := updateHeaders (clientSecret Constants) |}.

(** A build with an embedded release tag and client secret. *)
Definition releaseBuild (tag secret : string) : JsVal :=
  JObj [("expoConfig",
         JObj [("extra", JObj [("RELEASE_TAG", JStr tag);
                               ("MV_CLIENT_SECRET", JStr secret)])])].

(** A server that answers every request with the same response. *)
Definition answering (status : N) (body : Result JsVal)
  : Request -> Result Response :=
  fun _ => Ok {| status := status; json := body |}.

(** The ways the update-check request can fail. *)
Inductive fetchFails : Result Response -> Prop :=
| fails_network (e : JsVal) : fetchFails (Throw e)
| fails_status (res : Response) : ok res = false -> fetchFails (Ok res)
| fails_body (res : Response) (e : JsVal) :
    ok res = true -> json res = Throw e -> fetchFails (Ok res).

(** What the state settles to once the check has run with a present tag
    and the shell still mounted, in terms of what [fetchUpdateInfo]
    returned. *)
Definition settled (tag : string) (r : Result ClientUpdateInfo)
  (s : ShellState) : ShellState :=
  match r with
  | Ok info =>
      let required :=
        match requiredVersion info with
        | Some v => if String.eqb v "" then "" else normalizeTag v
        | None => ""
        end in
      setCheckingUpdate false
        (setUpdateRequired
           (negb (String.eqb required "") && negb (String.eqb required tag))
           (setUpdateInfo (Some info) s))
  | Throw e =>
      setCheckingUpdate false
        (setUpdateError (errorMessage "update_check_failed" e)
           (setUpdateRequired true s))
  end.

(** * Properties *)

(** ** Strings *)

Section StringFacts.

Lemma startsWith_refl (s : string) : startsWith s s = true.
Proof.
  induction s as [|c s IH]; simpl; [reflexivity|].
  now rewrite Ascii.eqb_refl.
Qed.

Lemma startsWith_app (p s : string) : startsWith (p ++ s) p = true.
Proof.
  induction p as [|c p IH]; simpl; [reflexivity|].
  now rewrite Ascii.eqb_refl.
Qed.

Lemma startsWith_head (a b : ascii) (s p : string) :
  startsWith (String b s) (String a p) = true -> a = b.
Proof.
  simpl. intros H. apply andb_prop in H. now apply Ascii.eqb_eq.
Qed.

Lemma startsWith_nonempty (s p : string) :
  p <> "" -> startsWith s p = true -> s <> "".
Proof.
  intros Hp H ->. destruct p; [congruence | discriminate].
Qed.

Lemma includes_app (p s : string) : includes (p ++ s) s = true.
Proof.
  induction p as [|c p IH]; simpl.
  - destruct s; cbn [includes]; now rewrite startsWith_refl.
  - rewrite IH. apply orb_true_r.
Qed.

Lemma trimStart_head (s : string) :
  match trimStart s with
  | EmptyString => True
  | String c _ => isWhite c = false
  end.
Proof.
  induction s as [|c s IH]; simpl; [exact I|].
  destruct (isWhite c) eqn:E; [exact IH | exact E].
Qed.

Lemma trimStart_fixed (c : ascii) (s : string) :
  isWhite c = false -> trimStart (String c s) = String c s.
Proof. intros H. simpl. now rewrite H. Qed.

Lemma trimEnd_idem (s : string) : trimEnd (trimEnd s) = trimEnd s.
Proof.
  induction s as [|c s IH]; simpl; [reflexivity|].
  destruct (trimEnd s) as [|d r] eqn:E.
  - destruct (isWhite c) eqn:W; simpl; [reflexivity | now rewrite W].
  - simpl in *. now rewrite IH.
Qed.

Lemma trimEnd_cons (c : ascii) (s : string) :
  isWhite c = false -> trimEnd (String c s) = String c (trimEnd s).
Proof.
  intros W. simpl. destruct (trimEnd s); [now rewrite W | reflexivity].
Qed.

(** A trimmed string is empty or starts with a character that is not
    white space. *)
Lemma trim_head (t : string) :
  match trim t with
  | EmptyString => True
  | String c _ => isWhite c = false
  end.
Proof.
  unfold trim. pose proof (trimStart_head t) as H.
  destruct (trimStart t) as [|c r]; simpl; [exact I|].
  destruct (trimEnd r); [destruct (isWhite c) eqn:W|]; simpl; congruence.
Qed.

Lemma trim_idem (t : string) : trim (trim t) = trim t.
Proof.
  pose proof (trim_head t) as H.
  destruct (trim t) as [|c r] eqn:E; [reflexivity|].
  unfold trim at 1. rewrite (trimStart_fixed c r H).
  rewrite <- E. unfold trim. apply trimEnd_idem.
Qed.

Lemma trimEnd_trim (t : string) : trimEnd (trim t) = trim t.
Proof. unfold trim. apply trimEnd_idem. Qed.

Lemma lowerChar_idem (c : ascii) : lowerChar (lowerChar c) = lowerChar c.
Proof.
  destruct c as [[] [] [] [] [] [] [] []]; vm_compute; reflexivity.
Qed.

Lemma toLowerCase_idem (s : string) :
  toLowerCase (toLowerCase s) = toLowerCase s.
Proof.
  induction s as [|c s IH]; simpl; [reflexivity|].
  now rewrite lowerChar_idem, IH.
Qed.

End StringFacts.

(** ** Version tags *)

Lemma normalizeTag_prefix (t : string) : startsWith (normalizeTag t) "v" = true.
Proof.
  unfold normalizeTag.
  destruct (startsWith (trim t) "v") eqn:E; [exact E | reflexivity].
Qed.

Lemma normalizeTag_nonempty (t : string) : normalizeTag t <> "".
Proof.
  apply (startsWith_nonempty _ "v"); [discriminate | apply normalizeTag_prefix].
Qed.

Lemma normalizeTag_idem (t : string) :
  normalizeTag (normalizeTag t) = normalizeTag t.
Proof.
  unfold normalizeTag at 2.
  destruct (startsWith (trim t) "v") eqn:E.
  - unfold normalizeTag. now rewrite trim_idem, E.
  - unfold normalizeTag.
    assert (T : trim ("v" ++ trim t) = "v" ++ trim t).
    { unfold trim at 1. change ("v" ++ trim t) with (String "v" (trim t)).
      rewrite trimStart_fixed by reflexivity.
      rewrite trimEnd_cons by reflexivity.
      now rewrite trimEnd_trim. }
    rewrite T, E. reflexivity.
Qed.

(** ** The update gate *)

Ltac unfold_check :=
  unfold startup, updateCheck, fetchUpdateInfo, updateRequest in *;
  cbn [bind run fst snd negb] in *.

Lemma eqb_empty_false (s : string) : s <> "" -> String.eqb s "" = false.
Proof. intros H. now apply String.eqb_neq. Qed.

Lemma localReleaseTag_normal (Constants : JsVal) :
  localReleaseTag Constants <> "" ->
  normalizeTag (localReleaseTag Constants) = localReleaseTag Constants.
Proof.
  unfold localReleaseTag.
  destruct (Js.getProp (extraOf Constants) "RELEASE_TAG");
    cbn; try congruence.
  destruct (String.eqb s ""); [congruence | intros _; apply normalizeTag_idem].
Qed.

Lemma updateCheck_present (secret tag : string) (s : ShellState)
  (net : Request -> Result Response) :
  tag <> "" ->
  run net (updateCheck true secret tag s) =
  (settled tag (fst (run net (fetchUpdateInfo secret)))
     (setUpdateError "" (setCheckingUpdate true s)),
   [{| reqUrl := CLIENT_UPDATE_URL; reqHeaders := updateHeaders secret |}]).
Proof.
  intros H. unfold_check. rewrite (eqb_empty_false _ H). cbn [bind run].
  unfold settled. cbn [run fst].
  destruct (net _) as [res|e]; [|reflexivity].
  destruct (ok res); cbn [negb]; [|reflexivity].
  destruct (json res) as [data|e]; [|reflexivity].
  cbn [requiredVersion].
  destruct (String.eqb _ ""); reflexivity.
Qed.

Lemma fetch_failure (secret : string) (net : Request -> Result Response) :
  fetchFails
    (net {| reqUrl := CLIENT_UPDATE_URL; reqHeaders := updateHeaders secret |})
  <-> exists e, fst (run net (fetchUpdateInfo secret)) = Throw e.
Proof.
  unfold_check. split.
  - intros F. inversion F as [e He | res Hok He | res e Hok Hj He].
    + now exists e.
    + rewrite Hok. cbn. eauto.
    + rewrite Hok, Hj. cbn. eauto.
  - intros [e He]. destruct (net _) as [res|e'].
    + destruct (ok res) eqn:Hok; [|now apply fails_status].
      destruct (json res) as [data|e'] eqn:Hj; [discriminate|].
      now apply (fails_body res e').
    + apply fails_network.
Qed.


(** C7. When the build carries no release tag, the gate goes from CHECKING
    straight to NOT_REQUIRED and the update endpoint is never requested. *)
Theorem absent_tag_skips_check (Constants : JsVal)
  (net : Request -> Result Response) :
  localReleaseTag Constants = "" ->
  gate initialState = CHECKING /\
  gate (fst (startup Constants net)) = NOT_REQUIRED /\
  snd (startup Constants net) = [].
Proof.
  intros H. unfold startup, updateCheck. rewrite H. cbn. auto.
Qed.

Lemma absent_tag_skips_check_witness :
  localReleaseTag (JObj []) = "" /\
  gate initialState = CHECKING /\
  gate (fst (startup (JObj []) (answering 500 (Ok JNull)))) = NOT_REQUIRED /\
  snd (startup (JObj []) (answering 500 (Ok JNull))) = [].
Proof.
  split; [reflexivity|].
  apply (absent_tag_skips_check (JObj []) (answering 500 (Ok JNull))).
  reflexivity.
Defined.

(** A successful response without a string [requiredVersion] field lets the
    shell through. *)
Lemma absent_required_version_passes (Constants : JsVal)
  (net : Request -> Result Response) (res : Response) (data : JsVal) :
  localReleaseTag Constants <> "" ->
  net (updateRequest Constants) = Ok res -> ok res = true ->
  json res = Ok data ->
  (forall v, Js.getProp data "requiredVersion" <> JStr v) ->
  gate (fst (startup Constants net)) = NOT_REQUIRED.
Proof.
  intros Htag Hnet Hok Hjson Hv. unfold startup.
  rewrite updateCheck_present by assumption.
  unfold_check. rewrite Hnet, Hok, Hjson. cbn.
  destruct (Js.getProp data "requiredVersion"); try reflexivity.
  now elim (Hv s).
Qed.

(** A successful response whose [requiredVersion] is a string: the stored
    tag is its normal form, and the shell is let through exactly when that
    equals the local tag. *)
Lemma string_required_version (Constants : JsVal)
  (net : Request -> Result Response) (res : Response) (data : JsVal)
  (v : string) :
  localReleaseTag Constants <> "" ->
  net (updateRequest Constants) = Ok res -> ok res = true ->
  json res = Ok data ->
  Js.getProp data "requiredVersion" = JStr v ->
  let s := fst (startup Constants net) in
  checkingUpdate s = false /\
  updateRequired s = negb (String.eqb (normalizeTag v) (localReleaseTag Constants)) /\
  option_map requiredVersion (updateInfo s) = Some (Some (normalizeTag v)) /\
  updateError s = "".
Proof.
  intros Htag Hnet Hok Hjson Hv. unfold startup.
  rewrite updateCheck_present by assumption.
  unfold_check. rewrite Hnet, Hok, Hjson, Hv. cbn.
  rewrite (eqb_empty_false _ (normalizeTag_nonempty v)).
  rewrite normalizeTag_idem.
  rewrite (eqb_empty_false _ (normalizeTag_nonempty v)). cbn. auto.
Qed.

(** C1. The claim holds for an absent field; for the empty string the code
    stores the tag [v] and blocks the shell: with local tag [v1.2.0] and
    the body [{"requiredVersion": ""}] the gate ends in REQUIRED. *)
Theorem empty_required_version_blocks :
  let Constants := releaseBuild "v1.2.0" "" in
  let net := answering 200 (Ok (JObj [("requiredVersion", JStr "")])) in
  localReleaseTag Constants = "v1.2.0" /\
  gate (fst (startup Constants net)) = REQUIRED /\
  updateInfo (fst (startup Constants net)) =
    Some {| requiredVersion := Some "v"; apkUrl := None |}.
Proof. vm_compute. auto. Qed.

(** C6. With a local tag and a successful response carrying a non-empty
    [requiredVersion] string, both tags are in [v]-prefixed normal form when
    compared, and the gate ends in NOT_REQUIRED exactly when they are equal
    and in REQUIRED otherwise, the normalized required tag being stored. *)
Theorem required_version_compared (Constants : JsVal)
  (net : Request -> Result Response) (res : Response) (data : JsVal)
  (v : string) :
  localReleaseTag Constants <> "" ->
  net (updateRequest Constants) = Ok res -> ok res = true ->
  json res = Ok data ->
  Js.getProp data "requiredVersion" = JStr v -> v <> "" ->
  let s := fst (startup Constants net) in
  let localTag := localReleaseTag Constants in
  startsWith localTag "v" = true /\ normalizeTag localTag = localTag /\
  startsWith (normalizeTag v) "v" = true /\
  (gate s = NOT_REQUIRED <-> normalizeTag v = localTag) /\
  (gate s = REQUIRED <-> normalizeTag v <> localTag) /\
  option_map requiredVersion (updateInfo s) = Some (Some (normalizeTag v)).
Proof.
  intros Htag Hnet Hok Hjson Hv _ s localTag.
  destruct (string_required_version Constants net res data v Htag Hnet Hok Hjson Hv)
    as (Hc & Hr & Hi & _).
  fold s in Hc, Hr, Hi. fold localTag in Hr.
  pose proof (localReleaseTag_normal Constants Htag) as Hn. fold localTag in Hn.
  repeat split; try assumption.
  - rewrite <- Hn. apply normalizeTag_prefix.
  - apply normalizeTag_prefix.
  - unfold gate. rewrite Hc, Hr.
    destruct (String.eqb_spec (normalizeTag v) localTag); cbn; congruence.
  - unfold gate. rewrite Hc, Hr. intros ->. now rewrite String.eqb_refl.
  - unfold gate. rewrite Hc, Hr.
    destruct (String.eqb_spec (normalizeTag v) localTag); cbn; congruence.
  - unfold gate. rewrite Hc, Hr. intros H.
    apply String.eqb_neq in H. now rewrite H.
Qed.

Lemma required_version_compared_witness :
  let Constants := releaseBuild "v1.2.0" "" in
  let same := answering 200 (Ok (JObj [("requiredVersion", JStr "1.2.0")])) in
  let newer := answering 200 (Ok (JObj [("requiredVersion", JStr "1.3.0")])) in
  gate (fst (startup Constants same)) = NOT_REQUIRED /\
  gate (fst (startup Constants newer)) = REQUIRED /\
  option_map requiredVersion (updateInfo (fst (startup Constants newer)))
    = Some (Some "v1.3.0").
Proof.
  intros Constants same newer.
  pose proof (required_version_compared Constants same
                {| status := 200; json := Ok (JObj [("requiredVersion", JStr "1.2.0")]) |}
                (JObj [("requiredVersion", JStr "1.2.0")]) "1.2.0") as A.
  pose proof (required_version_compared Constants newer
                {| status := 200; json := Ok (JObj [("requiredVersion", JStr "1.3.0")]) |}
                (JObj [("requiredVersion", JStr "1.3.0")]) "1.3.0") as B.
  destruct A as (_ & _ & _ & A & _);
    [discriminate | reflexivity | reflexivity | reflexivity | reflexivity
    | discriminate |].
  destruct B as (_ & _ & _ & _ & B & Bi);
    [discriminate | reflexivity | reflexivity | reflexivity | reflexivity
    | discriminate |].
  split; [apply A; reflexivity|].
  split; [apply B; discriminate | exact Bi].
Defined.

Section FetchThrows.

Variable secret : string.
Variable net : Request -> Result Response.

Let rq : Request :=
  {| reqUrl := CLIENT_UPDATE_URL; reqHeaders := updateHeaders secret |}.

Lemma fetch_throws_network (e : JsVal) :
  net rq = Throw e ->
  fst (run net (fetchUpdateInfo secret)) = Throw e.
Proof. unfold_check. subst rq. now intros ->. Qed.

Lemma fetch_throws_status (res : Response) :
  net rq = Ok res -> ok res = false ->
  fst (run net (fetchUpdateInfo secret))
  = Throw (Js.Error ("update_check_failed:" ++ ofN (status res))).
Proof. unfold_check. subst rq. now intros -> ->. Qed.

Lemma fetch_throws_body (res : Response) (e : JsVal) :
  net rq = Ok res -> ok res = true -> json res = Throw e ->
  fst (run net (fetchUpdateInfo secret)) = Throw e.
Proof. unfold_check. subst rq. now intros -> -> ->. Qed.

End FetchThrows.

(** The diagnostic a failed check leaves behind is the message of the
    thrown value, or the fallback when it has no string message. *)
Lemma failed_check_settles (Constants : JsVal)
  (net : Request -> Result Response) (e : JsVal) :
  localReleaseTag Constants <> "" ->
  fst (run net (fetchUpdateInfo (clientSecret Constants))) = Throw e ->
  let s := fst (startup Constants net) in
  checkingUpdate s = false /\ updateRequired s = true /\
  updateError s = errorMessage "update_check_failed" e.
Proof.
  intros Htag He. unfold startup.
  rewrite updateCheck_present by assumption.
  cbn [fst]. rewrite He. cbn. auto.
Qed.

(** C3 as stated fails: a rejected fetch whose error carries the empty
    message leaves the gate in REQUIRED with an empty diagnostic. *)
Lemma failed_check_empty_diagnostic :
  let Constants := releaseBuild "v1.2.0" "" in
  let net := fun _ : Request => Throw (Js.Error "") in
  localReleaseTag Constants <> "" /\
  fetchFails (net (updateRequest Constants)) /\
  gate (fst (startup Constants net)) = REQUIRED /\
  updateError (fst (startup Constants net)) = "".
Proof.
  cbv zeta. split; [discriminate|]. split; [apply fails_network|].
  split; reflexivity.
Qed.

(** C3, amended. With a local tag, a failed update check (network error,
    non-2xx status or malformed body) takes the gate from CHECKING to
    REQUIRED, never to NOT_REQUIRED.  For a non-2xx response the diagnostic
    is [update_check_failed:<status>]: non-empty, and it contains the status
    code.  For a thrown error the diagnostic is its message, or
    [update_check_failed] when it has no string message: non-empty unless
    the message is the empty string. *)
Theorem failed_check_blocks (Constants : JsVal)
  (net : Request -> Result Response) :
  localReleaseTag Constants <> "" ->
  fetchFails (net (updateRequest Constants)) ->
  let s := fst (startup Constants net) in
  gate initialState = CHECKING /\ gate s = REQUIRED /\ gate s <> NOT_REQUIRED /\
  (forall res, net (updateRequest Constants) = Ok res -> ok res = false ->
     updateError s = "update_check_failed:" ++ ofN (status res) /\
     updateError s <> "" /\
     includes (updateError s) (ofN (status res)) = true) /\
  (forall res e, net (updateRequest Constants) = Ok res -> ok res = true ->
     json res = Throw e ->
     updateError s = errorMessage "update_check_failed" e /\
     (Js.getProp e "message" <> JStr "" -> updateError s <> "")) /\
  (forall e, net (updateRequest Constants) = Throw e ->
     updateError s = errorMessage "update_check_failed" e /\
     (Js.getProp e "message" <> JStr "" -> updateError s <> "")).
Proof.
  intros Htag Hfail s.
  assert (Hmsg : forall e, Js.getProp e "message" <> JStr "" ->
                           errorMessage "update_check_failed" e <> "").
  { intros e. unfold errorMessage.
    destruct (Js.getProp e "message"); try discriminate; congruence. }
  assert (Hset : forall e,
             fst (run net (fetchUpdateInfo (clientSecret Constants))) = Throw e ->
             gate s = REQUIRED /\
             updateError s = errorMessage "update_check_failed" e).
  { intros e He.
    destruct (failed_check_settles Constants net e Htag He) as (Hc & Hr & Hd).
    split; [|exact Hd]. unfold gate. fold s in Hc, Hr. now rewrite Hc, Hr. }
  assert (Hg : gate s = REQUIRED).
  { apply fetch_failure in Hfail. destruct Hfail as [e He].
    now destruct (Hset e He). }
  split; [reflexivity|]. split; [exact Hg|]. split; [congruence|].
  split; [|split].
  - intros res Hnet Hok.
    destruct (Hset _ (fetch_throws_status _ net res Hnet Hok)) as [_ Hd].
    rewrite Hd. split; [reflexivity|]. split; [discriminate|].
    apply (includes_app "update_check_failed:").
  - intros res e Hnet Hok Hj.
    destruct (Hset _ (fetch_throws_body _ net res e Hnet Hok Hj)) as [_ Hd].
    rewrite Hd. split; [reflexivity | apply Hmsg].
  - intros e Hnet.
    destruct (Hset _ (fetch_throws_network _ net e Hnet)) as [_ Hd].
    rewrite Hd. split; [reflexivity | apply Hmsg].
Qed.

Lemma failed_check_blocks_witness :
  let Constants := releaseBuild "v1.2.0" "" in
  let s := fst (startup Constants (answering 500 (Ok JNull))) in
  gate s = REQUIRED /\ updateError s = "update_check_failed:500" /\
  includes (updateError s) "500" = true.
Proof.
  intros Constants s.
  destruct (failed_check_blocks Constants (answering 500 (Ok JNull)))
    as (_ & Hg & _ & Hs & _).
  - discriminate.
  - apply fails_status. reflexivity.
  - destruct (Hs {| status := 500; json := Ok JNull |}) as (Hd & _ & Hi);
      [reflexivity | reflexivity |].
    split; [exact Hg|]. split; [exact Hd | exact Hi].
Defined.

(** C9. The check is a function of the state, the build and the server's
    answers, and running it again on its own result against the same
    answers changes nothing: same verdict, same stored update info, same
    diagnostic, and the same request is issued. *)
Theorem update_check_idempotent (alive : bool) (secret tag : string)
  (net : Request -> Result Response) (s : ShellState) :
  let once := run net (updateCheck alive secret tag s) in
  let twice := run net (updateCheck alive secret tag (fst once)) in
  fst twice = fst once /\ snd twice = snd once /\
  gate (fst twice) = gate (fst once) /\
  updateRequired (fst twice) = updateRequired (fst once) /\
  updateInfo (fst twice) = updateInfo (fst once) /\
  updateError (fst twice) = updateError (fst once).
Proof.
  cbv zeta.
  assert (H : run net (updateCheck alive secret tag
                         (fst (run net (updateCheck alive secret tag s))))
              = run net (updateCheck alive secret tag s)).
  { unfold_check.
    destruct (String.eqb tag ""); [reflexivity|]. cbn [bind run fst].
    destruct (net _) as [res|e]; [|destruct alive; reflexivity].
    destruct (ok res); cbn [negb]; [|destruct alive; reflexivity].
    destruct (json res) as [data|e]; [|destruct alive; reflexivity].
    destruct alive; cbn [negb]; [|reflexivity].
    destruct (String.eqb _ ""); reflexivity. }
  rewrite H. repeat split.
Qed.

(** ** The render rule *)

Lemma updateCheck_keeps_error (alive : bool) (secret tag : string)
  (net : Request -> Result Response) (s : ShellState) :
  hasError (fst (run net (updateCheck alive secret tag s))) = hasError s.
Proof.
  unfold_check.
  destruct (String.eqb tag ""); [reflexivity|]. cbn [bind run fst].
  destruct (net _) as [res|e]; [|destruct alive; reflexivity].
  destruct (ok res); cbn [negb]; [|destruct alive; reflexivity].
  destruct (json res) as [data|e]; [|destruct alive; reflexivity].
  destruct alive; cbn [negb]; [|reflexivity].
  destruct (String.eqb _ ""); reflexivity.
Qed.

Section RenderRule.

Variable Constants : JsVal.
Variable android : bool.

(** The error screen replaces the browser only after the gate has let the
    shell through: the browser must have been mounted to report an
    error, and the gate does not move once it has settled. *)
Lemma error_only_after_pass (s : ShellState) :
  reachable Constants android s ->
  hasError s = true -> gate s = NOT_REQUIRED.
Proof.
  unfold gate. induction 1 as [|s ev Hs IH Hen]; [discriminate|].
  destruct ev; cbn [handle enabled] in *.
  - rewrite updateCheck_keeps_error. intros He.
    specialize (IH He). now rewrite Hen in IH.
  - discriminate.
  - unfold webViewMounted, renderMain in Hen. cbn.
    destruct (hasError s); [discriminate|]. discriminate.
  - unfold webViewMounted, renderMain in Hen. cbn. intros _.
    destruct (hasError s); [discriminate|].
    destruct (checkingUpdate s), (updateRequired s); try discriminate.
    reflexivity.
  - unfold webViewMounted, renderMain in Hen. cbn. intros _.
    destruct (hasError s); [discriminate|].
    destruct (checkingUpdate s), (updateRequired s); try discriminate.
    reflexivity.
  - discriminate.
  - discriminate.
  - exact IH.
  - unfold startUpdate.
    destruct android; cbn [negb]; [|exact IH].
    destruct (updateInfo s) as [[rv [u|]]|]; [|exact IH|exact IH].
    destruct (String.eqb u ""); exact IH.
  - unfold onDownloadProgress.
    destruct (_ <? _)%Z; exact IH.
  - destruct r; exact IH.
Qed.

(** C2 as stated fails: after the gate has settled in NOT_REQUIRED and the
    browser has reported a load error, the shell shows the error screen
    and the browser is not mounted. *)
Lemma not_required_without_browser :
  let s := handle (JObj []) true (WebError JUndefined)
             (handle (JObj []) true (UpdateCheckSettled (answering 200 (Ok JNull)))
                initialState) in
  reachable (JObj []) true s /\
  gate s = NOT_REQUIRED /\ webViewMounted s = false.
Proof.
  cbv zeta. split; [|split; reflexivity].
  apply reach_step; [|reflexivity].
  apply reach_step; [apply reach_init | reflexivity].
Qed.

End RenderRule.

(** C2, amended. In every reachable state the embedded browser is mounted
    if and only if the gate is in NOT_REQUIRED and the error screen is not
    shown; and the error screen is shown only when the gate is in
    NOT_REQUIRED. *)
Theorem browser_mounted_iff (Constants : JsVal) (android : bool)
  (s : ShellState) :
  reachable Constants android s ->
  (webViewMounted s = true <-> gate s = NOT_REQUIRED /\ hasError s = false) /\
  (renderMain s = Some ErrorPanel -> gate s = NOT_REQUIRED).
Proof.
  intros R. pose proof (error_only_after_pass Constants android s R) as E.
  revert E. unfold webViewMounted, renderMain, gate.
  destruct (hasError s), (checkingUpdate s), (updateRequired s); cbn;
    intros E; (split; [split|]); try discriminate; auto;
    intros [? ?]; discriminate.
Qed.

Lemma browser_mounted_iff_witness :
  let s := handle (JObj []) true (UpdateCheckSettled (answering 200 (Ok JNull)))
             initialState in
  reachable (JObj []) true s /\ webViewMounted s = true /\
  gate s = NOT_REQUIRED.
Proof.
  cbv zeta.
  assert (R : reachable (JObj []) true
                (handle (JObj []) true
                   (UpdateCheckSettled (answering 200 (Ok JNull))) initialState))
    by (apply reach_step; [apply reach_init | reflexivity]).
  split; [exact R|]. split; [reflexivity|].
  apply (proj1 (browser_mounted_iff (JObj []) true _ R)). reflexivity.
Defined.

(** ** The navigation policy *)

Lemma web_prefix_exclusive (url : string) :
  startsWith url "http://" || startsWith url "https://" = true ->
  String.eqb url "" = false /\
  startsWith url "spotify:" || startsWith url "intent:" = false /\
  startsWith url "mailto:" || startsWith url "tel:"
    || startsWith url "sms:" = false.
Proof.
  destruct url as [|c r]; [discriminate|]. intros H.
  assert (E : c = "h"%char).
  { apply orb_prop in H. destruct H as [H|H];
      symmetry; exact (startsWith_head _ _ _ _ H). }
  subst c. repeat split.
Qed.

Lemma PlainURL_host_lower (s : string) (u : URL) :
  PlainURL.parse s = Some u -> toLowerCase (host u) = host u.
Proof.
  unfold PlainURL.parse.
  destruct (PlainURL.break ":" s) as [scheme rest].
  destruct rest as [|c0 rest]; [discriminate|].
  destruct (negb _); [discriminate|].
  destruct (_ || _).
  - destruct (PlainURL.stripPrefix "//" rest) as [r|]; [|discriminate].
    destruct (PlainURL.break "/?#" r) as [authority tail].
    destruct (PlainURL.break "?#" tail) as [path q].
    destruct (_ && _); [|discriminate].
    intros [= <-]. cbn. apply toLowerCase_idem.
  - destruct (existsb _ _); [discriminate|].
    destruct (PlainURL.stripPrefix "//" rest) as [r|].
    + destruct (PlainURL.break "/?#" r) as [authority tail].
      destruct (PlainURL.break "?#" tail) as [path q].
      destruct (PlainURL.all PlainURL.hostChar authority); [|discriminate].
      destruct (String.eqb_spec (toLowerCase authority) authority);
        [|discriminate].
      destruct (PlainURL.all _ _); [|discriminate].
      now intros [= <-].
    + destruct (startsWith rest "/"); [discriminate|].
      destruct (PlainURL.break "?#" rest) as [path q].
      destruct (PlainURL.all _ _); [|discriminate]. now intros [= <-].
Qed.

Section NavigationFacts.

Variable parseURL : string -> option URL.

Lemma decide_web (req : JsVal) :
  startsWith (requestUrl req) "http://"
    || startsWith (requestUrl req) "https://" = true ->
  onShouldStartLoadWithRequest parseURL req =
    if requestIsTopFrame req && partnerVeto parseURL (requestUrl req)
    then veto (requestUrl req)
    else if requestIsTopFrame req && isExternalToBase parseURL (requestUrl req)
         then veto (requestUrl req)
         else allow.
Proof.
  intros H. unfold onShouldStartLoadWithRequest.
  destruct (web_prefix_exclusive _ H) as (-> & -> & ->). now rewrite H.
Qed.

Lemma isExternalToBase_allowed (url : string) (u : URL) :
  parseURL url = Some u ->
  arrayIncludes ALLOWED_HOSTS (host u) = true ->
  isExternalToBase parseURL url = false.
Proof. intros Hp Ha. unfold isExternalToBase. now rewrite Hp, Ha. Qed.

(** The host classifier never raises, and a string that does not parse is
    not external. *)
Lemma isExternalToBase_malformed (url : string) :
  parseURL url = None -> isExternalToBase parseURL url = false.
Proof. intros Hp. unfold isExternalToBase. now rewrite Hp. Qed.

End NavigationFacts.

(** The external dispatcher asks the operating system once whether it can
    open the URL, and opens it only on a positive answer; a failing query is
    swallowed. *)
Lemma openExternal_queries_once (canOpen : string -> Result bool)
  (url : string) :
  openExternal canOpen url =
    CanOpenURL url ::
    match canOpen url with
    | Ok true => [OpenURL url]
    | _ => []
    end.
Proof.
  unfold openExternal. destruct (canOpen url) as [[|]|]; reflexivity.
Qed.

(** C4 as stated fails, in two ways.  The prefix tests are case-sensitive:
    a top-level request for [HTTPS://open.spotify.com/track/123] is an https
    request for the partner host outside [/embed/], and it is allowed in
    place.  The allow-list test is case-sensitive too: were the parser to
    return the host as written, a top-level request for
    [https://Open.Spotify.COM/embed/x] would be vetoed as external. *)
Lemma partner_host_claim_fails :
  (PlainURL.parse "HTTPS://open.spotify.com/track/123"
   = Some {| host := "open.spotify.com"; pathname := "/track/123" |} /\
   onShouldStartLoadWithRequest PlainURL.parse
     (request "HTTPS://open.spotify.com/track/123" (JBool true)) = allow) /\
  (PlainURL.parseAsWritten "https://Open.Spotify.COM/embed/x"
   = Some {| host := "Open.Spotify.COM"; pathname := "/embed/x" |} /\
   toLowerCase "Open.Spotify.COM" = "open.spotify.com" /\
   onShouldStartLoadWithRequest PlainURL.parseAsWritten
     (request "https://Open.Spotify.COM/embed/x" (JBool true))
   = veto "https://Open.Spotify.COM/embed/x").
Proof. vm_compute. repeat split. Qed.

Lemma partner_host_external (parseURL : string -> option URL)
  (url : string) (u : URL) :
  parseURL url = Some u ->
  toLowerCase (host u) = "open.spotify.com"
    \/ toLowerCase (host u) = "spotify.com" ->
  isExternalToBase parseURL url =
    negb (String.eqb (toLowerCase (host u)) (host u))
    && negb (String.eqb (host u) (baseHost parseURL)).
Proof.
  intros Hp Hhost. unfold isExternalToBase. rewrite Hp.
  destruct (String.eqb_spec (toLowerCase (host u)) (host u)) as [E|E].
  - rewrite <- E. now destruct Hhost as [-> | ->].
  - assert (A : arrayIncludes ALLOWED_HOSTS (host u) = false).
    { unfold arrayIncludes, ALLOWED_HOSTS. cbn [existsb].
      repeat match goal with
             | |- context [String.eqb (host u) ?e] =>
                 destruct (String.eqb_spec (host u) e) as [X|_];
                 [exfalso; apply E; rewrite X; reflexivity|]
             end.
      reflexivity. }
    rewrite A. cbn [negb andb].
    destruct (String.eqb_spec (host u) (baseHost parseURL)) as [B|_];
      [|now rewrite andb_false_r].
    rewrite <- B.
    destruct (String.eqb_spec (host u) "") as [Z|_]; [|reflexivity].
    rewrite Z in Hhost. destruct Hhost; discriminate.
Qed.

(** C4, amended. For a request whose URL begins with [http://] or
    [https://] (tested case-sensitively) and whose parsed host, put in lower
    case, is [open.spotify.com] or [spotify.com]: a top-level request whose
    path does not begin with [/embed/] is vetoed and dispatched externally;
    a top-level request whose path begins with [/embed/] is allowed in
    place when the parsed host is already in lower case (or is the base
    host) and vetoed as external otherwise, the allow-list being compared
    case-sensitively; a request that is not top-level is allowed in
    place. *)
Theorem partner_host_policy (parseURL : string -> option URL)
  (req : JsVal) (url : string) (u : URL) :
  requestUrl req = url ->
  startsWith url "http://" || startsWith url "https://" = true ->
  parseURL url = Some u ->
  toLowerCase (host u) = "open.spotify.com"
    \/ toLowerCase (host u) = "spotify.com" ->
  onShouldStartLoadWithRequest parseURL req =
    if requestIsTopFrame req
       && (negb (startsWith (pathname u) "/embed/")
           || negb (String.eqb (toLowerCase (host u)) (host u))
              && negb (String.eqb (host u) (baseHost parseURL)))
    then veto url
    else allow.
Proof.
  intros Hurl Hweb Hparse Hhost. subst url.
  rewrite decide_web by assumption.
  assert (Hpv : partnerVeto parseURL (requestUrl req)
                = negb (startsWith (pathname u) "/embed/")).
  { unfold partnerVeto. rewrite Hparse.
    destruct Hhost as [-> | ->]; reflexivity. }
  rewrite Hpv, (partner_host_external parseURL _ u Hparse Hhost).
  destruct (requestIsTopFrame req), (startsWith (pathname u) "/embed/"),
    (negb (String.eqb (toLowerCase (host u)) (host u))
     && negb (String.eqb (host u) (baseHost parseURL)));
    reflexivity.
Qed.

Lemma partner_host_policy_witness :
  (onShouldStartLoadWithRequest PlainURL.parse
     (request "https://open.spotify.com/track/123" (JBool true))
   = veto "https://open.spotify.com/track/123" /\
   onShouldStartLoadWithRequest PlainURL.parse
     (request "https://open.spotify.com/embed/track/123" (JBool true))
   = allow /\
   onShouldStartLoadWithRequest PlainURL.parse
     (request "https://open.spotify.com/track/123" (JBool false))
   = allow) /\
  (onShouldStartLoadWithRequest PlainURL.parseAsWritten
     (request "https://Spotify.COM/album/7" (JBool true))
   = veto "https://Spotify.COM/album/7" /\
   onShouldStartLoadWithRequest PlainURL.parseAsWritten
     (request "https://Spotify.COM/embed/album/7" (JBool true))
   = veto "https://Spotify.COM/embed/album/7" /\
   onShouldStartLoadWithRequest PlainURL.parseAsWritten
     (request "https://Spotify.COM/embed/album/7" (JBool false))
   = allow).
Proof.
  split; (split; [|split]).
  - exact (partner_host_policy PlainURL.parse
             (request "https://open.spotify.com/track/123" (JBool true))
             "https://open.spotify.com/track/123"
             {| host := "open.spotify.com"; pathname := "/track/123" |}
             eq_refl eq_refl eq_refl (or_introl eq_refl)).
  - exact (partner_host_policy PlainURL.parse
             (request "https://open.spotify.com/embed/track/123" (JBool true))
             "https://open.spotify.com/embed/track/123"
             {| host := "open.spotify.com"; pathname := "/embed/track/123" |}
             eq_refl eq_refl eq_refl (or_introl eq_refl)).
  - exact (partner_host_policy PlainURL.parse
             (request "https://open.spotify.com/track/123" (JBool false))
             "https://open.spotify.com/track/123"
             {| host := "open.spotify.com"; pathname := "/track/123" |}
             eq_refl eq_refl eq_refl (or_introl eq_refl)).
  - exact (partner_host_policy PlainURL.parseAsWritten
             (request "https://Spotify.COM/album/7" (JBool true))
             "https://Spotify.COM/album/7"
             {| host := "Spotify.COM"; pathname := "/album/7" |}
             eq_refl eq_refl eq_refl (or_intror eq_refl)).
  - exact (partner_host_policy PlainURL.parseAsWritten
             (request "https://Spotify.COM/embed/album/7" (JBool true))
             "https://Spotify.COM/embed/album/7"
             {| host := "Spotify.COM"; pathname := "/embed/album/7" |}
             eq_refl eq_refl eq_refl (or_intror eq_refl)).
  - exact (partner_host_policy PlainURL.parseAsWritten
             (request "https://Spotify.COM/embed/album/7" (JBool false))
             "https://Spotify.COM/embed/album/7"
             {| host := "Spotify.COM"; pathname := "/embed/album/7" |}
             eq_refl eq_refl eq_refl (or_intror eq_refl)).
Defined.

(** C5. A request whose URL begins with [mailto:], [tel:] or [sms:] is
    vetoed whatever its frame level, with exactly one external dispatch, of
    that URL. *)
Theorem contact_schemes_vetoed (parseURL : string -> option URL)
  (req : JsVal) (url : string) :
  requestUrl req = url ->
  startsWith url "mailto:" || startsWith url "tel:"
    || startsWith url "sms:" = true ->
  allowInPlace (onShouldStartLoadWithRequest parseURL req) = false /\
  dispatched (onShouldStartLoadWithRequest parseURL req) = [url] /\
  length (dispatched (onShouldStartLoadWithRequest parseURL req)) = 1.
Proof.
  intros Hurl Hpre. unfold onShouldStartLoadWithRequest. rewrite Hurl.
  assert (Hne : String.eqb url "" = false).
  { destruct url; [discriminate | reflexivity]. }
  rewrite Hne, Hpre.
  destruct (startsWith url "spotify:" || startsWith url "intent:");
    repeat split.
Qed.

Lemma contact_schemes_vetoed_witness :
  onShouldStartLoadWithRequest PlainURL.parse
    (request "tel:+15551234" (JBool false))
  = veto "tel:+15551234" /\
  dispatched (onShouldStartLoadWithRequest PlainURL.parse
                (request "mailto:someone@example.com" JUndefined))
  = ["mailto:someone@example.com"].
Proof.
  split; [reflexivity|].
  apply (contact_schemes_vetoed PlainURL.parse
           (request "mailto:someone@example.com" JUndefined)
           "mailto:someone@example.com"); reflexivity.
Defined.

(** The listener on completed navigations dispatches such a URL once, on
    its own account. *)
Lemma contact_schemes_listener (nav : JsVal) (url : string) :
  requestUrl nav = url ->
  startsWith url "mailto:" || startsWith url "tel:"
    || startsWith url "sms:" = true ->
  onNavigationStateChange nav = [url].
Proof.
  intros Hurl Hpre. unfold onNavigationStateChange. rewrite Hurl.
  assert (Hne : String.eqb url "" = false).
  { destruct url; [discriminate | reflexivity]. }
  now rewrite Hne, Hpre.
Qed.

(** C8 as stated fails: [mailto://a b] does not parse (a host cannot
    contain a space), yet the policy vetoes it, because the scheme prefixes
    are tested before any parsing. *)
Lemma malformed_contact_url_vetoed :
  PlainURL.parse "mailto://a b" = None /\
  isExternalToBase PlainURL.parse "mailto://a b" = false /\
  onShouldStartLoadWithRequest PlainURL.parse
    (request "mailto://a b" (JBool true))
  = veto "mailto://a b".
Proof. repeat split. Qed.

(** C8, amended. The host classifier is total and answers [false] on every
    string that does not parse; for such a string the policy allows in
    place, unless the string begins with one of the dispatch prefixes
    [spotify:], [intent:], [mailto:], [tel:], [sms:], which are tested before
    any parsing and vetoed. *)
Theorem malformed_url_allowed (parseURL : string -> option URL)
  (req : JsVal) (url : string) :
  requestUrl req = url ->
  parseURL url = None ->
  isExternalToBase parseURL url = false /\
  onShouldStartLoadWithRequest parseURL req =
    if startsWith url "spotify:" || startsWith url "intent:"
       || (startsWith url "mailto:" || startsWith url "tel:"
           || startsWith url "sms:")
    then veto url
    else allow.
Proof.
  intros Hurl Hp. split; [now apply isExternalToBase_malformed|].
  unfold onShouldStartLoadWithRequest. rewrite Hurl.
  unfold partnerVeto. rewrite (isExternalToBase_malformed _ _ Hp), Hp.
  rewrite !andb_false_r.
  destruct url as [|c r]; [reflexivity|]. cbn [String.eqb].
  destruct (startsWith (String c r) "spotify:" || startsWith (String c r) "intent:");
    [reflexivity|].
  destruct (startsWith (String c r) "mailto:" || startsWith (String c r) "tel:"
            || startsWith (String c r) "sms:"); [reflexivity|].
  destruct (startsWith (String c r) "http://" || startsWith (String c r) "https://");
    reflexivity.
Qed.

Lemma malformed_url_allowed_witness :
  isExternalToBase PlainURL.parse "https://a b/" = false /\
  onShouldStartLoadWithRequest PlainURL.parse
    (request "https://a b/" (JBool true)) = allow.
Proof.
  exact (malformed_url_allowed PlainURL.parse
           (request "https://a b/" (JBool true)) "https://a b/"
           eq_refl eq_refl).
Defined.

(** C10. A request whose [isTopFrame] field is missing or not a boolean is
    decided as the top-level request for the same URL. *)
Theorem missing_frame_flag_is_top (parseURL : string -> option URL)
  (req : JsVal) :
  (forall b, Js.getProp req "isTopFrame" <> JBool b) ->
  requestIsTopFrame req = true /\
  onShouldStartLoadWithRequest parseURL req =
  onShouldStartLoadWithRequest parseURL (request (requestUrl req) (JBool true)).
Proof.
  intros H.
  assert (T : requestIsTopFrame req = true).
  { unfold requestIsTopFrame.
    destruct (Js.getProp req "isTopFrame") eqn:E; try reflexivity.
    now elim (H b). }
  split; [exact T|].
  unfold onShouldStartLoadWithRequest. rewrite T. reflexivity.
Qed.

Lemma missing_frame_flag_is_top_witness :
  onShouldStartLoadWithRequest PlainURL.parse
    (JObj [("url", JStr "https://example.com/x")])
  = veto "https://example.com/x" /\
  onShouldStartLoadWithRequest PlainURL.parse
    (request "https://open.spotify.com/track/123" (JStr "no"))
  = veto "https://open.spotify.com/track/123".
Proof.
  split.
  - rewrite (proj2 (missing_frame_flag_is_top PlainURL.parse
                      (JObj [("url", JStr "https://example.com/x")])
                      ltac:(discriminate))).
    reflexivity.
  - rewrite (proj2 (missing_frame_flag_is_top PlainURL.parse
                      (request "https://open.spotify.com/track/123" (JStr "no"))
                      ltac:(discriminate))).
    reflexivity.
Defined.

(** * Further properties of the code *)

(** ** Version tags and build constants *)

(** X1. [normalizeTag] yields a canonical form: it is idempotent, its result
    always begins with [v] and is never empty, and white space around the
    tag does not matter. *)
Theorem normalizeTag_canonical (t : string) :
  normalizeTag (normalizeTag t) = normalizeTag t /\
  startsWith (normalizeTag t) "v" = true /\
  normalizeTag t <> "" /\
  normalizeTag (trim t) = normalizeTag t.
Proof.
  split; [apply normalizeTag_idem|].
  split; [apply normalizeTag_prefix|].
  split; [apply normalizeTag_nonempty|].
  unfold normalizeTag. now rewrite trim_idem.
Qed.

Lemma trim_v_cons (s : string) : trim s = s -> trim ("v" ++ s) = "v" ++ s.
Proof.
  intros H. unfold trim at 1. change ("v" ++ s) with (String "v" s).
  rewrite trimStart_fixed by reflexivity.
  rewrite trimEnd_cons by reflexivity.
  now rewrite <- H, trimEnd_trim.
Qed.

(** X2. The [v] prefix is optional: a trimmed tag that does not begin with
    [v] and the same tag with [v] in front have the same normal form. *)
Theorem normalizeTag_prefix_optional (s : string) :
  trim s = s -> startsWith s "v" = false ->
  normalizeTag s = "v" ++ s /\ normalizeTag ("v" ++ s) = normalizeTag s.
Proof.
  intros Ht Hv.
  assert (A : normalizeTag s = "v" ++ s)
    by (unfold normalizeTag; now rewrite Ht, Hv).
  split; [exact A|]. rewrite A.
  unfold normalizeTag. now rewrite (trim_v_cons s Ht).
Qed.

Lemma normalizeTag_prefix_optional_witness :
  normalizeTag "1.2.0" = "v1.2.0" /\ normalizeTag "v1.2.0" = normalizeTag "1.2.0".
Proof.
  exact (normalizeTag_prefix_optional "1.2.0" eq_refl eq_refl).
Defined.

(** X3. The local release tag is present exactly when the build's
    [RELEASE_TAG] is a non-empty string, and it is then that string's normal
    form; otherwise it is the empty string. *)
Theorem local_tag_present_iff (Constants : JsVal) :
  (localReleaseTag Constants <> "" <->
   exists t, Js.getProp (extraOf Constants) "RELEASE_TAG" = JStr t /\ t <> "") /\
  (forall t, Js.getProp (extraOf Constants) "RELEASE_TAG" = JStr t -> t <> "" ->
             localReleaseTag Constants = normalizeTag t).
Proof.
  unfold localReleaseTag. split.
  - destruct (Js.getProp (extraOf Constants) "RELEASE_TAG") as [| |b|n|t|l|l];
      cbn; try (split; [congruence | intros (t & E & _); discriminate]).
    destruct (String.eqb_spec t "") as [->|Hne].
    + split; [congruence | intros (t & [= <-] & H); congruence].
    + split; [intros _; now exists t | intros _; apply normalizeTag_nonempty].
  - intros t -> Hne. now rewrite (eqb_empty_false _ Hne).
Qed.

(** ** The update check *)

Ltac by_check_cases tag net alive fin :=
  unfold_check;
  destruct (String.eqb tag ""); [fin|]; cbn [bind run fst snd];
  destruct (net _) as [?res|?e]; [|destruct alive; fin];
  destruct (ok _); cbn [negb]; [|destruct alive; fin];
  destruct (json _) as [?data|?e]; [|destruct alive; fin];
  destruct alive; cbn [negb]; [|fin];
  destruct (String.eqb _ ""); fin.

(** X4. The client secret travels as the header [x-mv-client] exactly when
    it is not empty, on the two requests that carry it: the load of the base
    address and the update check, both under the base address. *)
Theorem client_secret_header (secret : string) :
  let page := webSource secret in
  let check := {| reqUrl := CLIENT_UPDATE_URL;
                  reqHeaders := updateHeaders secret |} in
  (forall v, In ("x-mv-client", v) (reqHeaders page)
             <-> v = secret /\ secret <> "") /\
  (forall v, In ("x-mv-client", v) (reqHeaders check)
             <-> v = secret /\ secret <> "") /\
  startsWith (reqUrl page) (dropTrailingSlash BASE_URL) = true /\
  startsWith (reqUrl check) (dropTrailingSlash BASE_URL) = true.
Proof.
  cbv zeta. unfold webSource, updateHeaders. cbn [reqHeaders reqUrl].
  destruct (String.eqb_spec secret "") as [->|Hne]; cbn [In].
  - split; [|split; [|split; reflexivity]]; intros v; split.
    + intros [].
    + intros [_ E]. congruence.
    + intros [E|[]]. discriminate E.
    + intros [_ E]. congruence.
  - split; [|split; [|split; reflexivity]]; intros v; split.
    + intros [E|[]]. injection E as <-. now split.
    + intros [-> _]. now left.
    + intros [E|[E|[]]]; [discriminate E|]. injection E as <-. now split.
    + intros [-> _]. right. now left.
Qed.

(** X5. The update check issues no request when the local tag is absent and
    exactly one, to the update endpoint, when it is present, whatever the
    server answers and whether or not the shell is still mounted. *)
Theorem update_check_requests (alive : bool) (secret tag : string)
  (net : Request -> Result Response) (s : ShellState) :
  snd (run net (updateCheck alive secret tag s)) =
    if String.eqb tag "" then []
    else [{| reqUrl := CLIENT_UPDATE_URL; reqHeaders := updateHeaders secret |}].
Proof.
  unfold_check. destruct (String.eqb tag ""); reflexivity.
Qed.

Lemma fetched_info_shape (secret : string) (net : Request -> Result Response)
  (info : ClientUpdateInfo) :
  fst (run net (fetchUpdateInfo secret)) = Ok info ->
  (exists res data,
      net {| reqUrl := CLIENT_UPDATE_URL; reqHeaders := updateHeaders secret |}
        = Ok res /\ ok res = true /\ json res = Ok data) /\
  (forall v, requiredVersion info = Some v -> normalizeTag v = v /\ v <> "").
Proof.
  unfold_check. destruct (net _) as [res|e]; [|discriminate].
  destruct (ok res) eqn:Hok; cbn [negb]; [|discriminate].
  destruct (json res) as [data|e] eqn:Hj; [|discriminate].
  intros [= <-]. split; [now exists res, data|].
  cbn [requiredVersion]. intros v.
  destruct (Js.getProp data "requiredVersion"); try discriminate.
  intros [= <-]. split; [apply normalizeTag_idem | apply normalizeTag_nonempty].
Qed.

(** X6. When [fetchUpdateInfo] returns update info, the server answered with
    a 2xx status and a parseable body, and the required version it returns
    is either absent or a non-empty tag in normal form: never the empty
    string. *)
Theorem fetched_info_normal (secret : string)
  (net : Request -> Result Response) (info : ClientUpdateInfo) :
  fst (run net (fetchUpdateInfo secret)) = Ok info ->
  (exists res data,
      net {| reqUrl := CLIENT_UPDATE_URL; reqHeaders := updateHeaders secret |}
        = Ok res /\ (200 <= status res <= 299)%N /\ json res = Ok data) /\
  (requiredVersion info = None \/
   exists v, requiredVersion info = Some v /\ normalizeTag v = v /\ v <> "").
Proof.
  intros H. destruct (fetched_info_shape secret net info H) as [(res & data & A & B & C) D].
  split.
  - exists res, data. split; [exact A|]. split; [|exact C].
    unfold ok in B. apply andb_prop in B. destruct B as [B1 B2].
    split; now apply N.leb_le.
  - destruct (requiredVersion info) as [v|]; [right|now left].
    exists v. split; [reflexivity | now apply D].
Qed.

Lemma fetched_info_normal_witness :
  exists v,
    requiredVersion {| requiredVersion := Some "v1.3.0"; apkUrl := None |} = Some v /\
    normalizeTag v = v /\ v <> "".
Proof.
  destruct (fetched_info_normal ""
              (answering 200 (Ok (JObj [("requiredVersion", JStr " 1.3.0")])))
              {| requiredVersion := Some "v1.3.0"; apkUrl := None |} eq_refl)
    as [_ [H|H]]; [discriminate H | exact H].
Defined.

(** X7. If the shell is unmounted while the request is in flight, the
    effect writes nothing once it settles: the state is the one it left
    before awaiting, whatever the server answered. *)
Theorem unmounted_check_writes_nothing (secret tag : string)
  (net : Request -> Result Response) (s : ShellState) :
  tag <> "" ->
  fst (run net (updateCheck false secret tag s))
  = setUpdateError "" (setCheckingUpdate true s).
Proof.
  intros H. unfold_check. rewrite (eqb_empty_false _ H). cbn [bind run fst].
  destruct (net _) as [res|e]; [|reflexivity].
  destruct (ok res); cbn [negb]; [|reflexivity].
  destruct (json res); reflexivity.
Qed.

Lemma unmounted_check_writes_nothing_witness :
  gate (fst (run (answering 500 (Ok JNull))
               (updateCheck false "" "v1.2.0" initialState))) = CHECKING.
Proof.
  rewrite (unmounted_check_writes_nothing "" "v1.2.0"
             (answering 500 (Ok JNull)) initialState ltac:(discriminate)).
  reflexivity.
Defined.

Lemma updateCheck_keeps_download (alive : bool) (secret tag : string)
  (net : Request -> Result Response) (s : ShellState) :
  downloadingUpdate (fst (run net (updateCheck alive secret tag s)))
  = downloadingUpdate s /\
  downloadProgress (fst (run net (updateCheck alive secret tag s)))
  = downloadProgress s.
Proof. by_check_cases tag net alive ltac:(split; reflexivity). Qed.

(** X8. The update check writes only the four cells of the gate: the
    loading, refreshing, error and download cells are left as they were. *)
Theorem update_check_frame (alive : bool) (secret tag : string)
  (net : Request -> Result Response) (s : ShellState) :
  let s' := fst (run net (updateCheck alive secret tag s)) in
  loading s' = loading s /\ refreshing s' = refreshing s /\
  hasError s' = hasError s /\ errorDetail s' = errorDetail s /\
  downloadingUpdate s' = downloadingUpdate s /\
  downloadProgress s' = downloadProgress s.
Proof.
  cbv zeta.
  by_check_cases tag net alive ltac:(repeat split).
Qed.

(** X9. While the shell is mounted the check always leaves CHECKING,
    whatever the server answers; and when it lets the shell through it
    leaves no diagnostic behind. *)
Theorem update_check_settles (secret tag : string)
  (net : Request -> Result Response) (s : ShellState) :
  let s' := fst (run net (updateCheck true secret tag s)) in
  gate s' <> CHECKING /\ (gate s' = NOT_REQUIRED -> updateError s' = "").
Proof.
  cbv zeta. unfold gate.
  assert (Fin : forall (g : Gate) (m : string),
             g = REQUIRED \/ (g = NOT_REQUIRED /\ m = "") ->
             g <> CHECKING /\ (g = NOT_REQUIRED -> m = "")).
  { intros g m [-> | [-> ->]]; split; congruence. }
  unfold_check.
  destruct (String.eqb tag ""); [apply Fin; cbn; auto|]. cbn [bind run fst snd].
  destruct (net _) as [res|e]; [|apply Fin; cbn; auto].
  destruct (ok res); cbn [negb]; [|apply Fin; cbn; auto].
  destruct (json res) as [data|e]; [|apply Fin; cbn; auto].
  destruct (String.eqb _ ""); [apply Fin; cbn; auto|].
  apply Fin. cbn.
  match goal with |- context [negb ?b] => destruct b end; cbn; auto.
Qed.

(** ** The shell as a state machine *)

Section ShellFacts.

Variable Constants : JsVal.
Variable android : bool.

(** Only the settling of the update check writes the gate's verdict and the
    stored update info. *)
Lemma handle_keeps_gate (ev : Event) (s : ShellState) :
  (exists net, ev = UpdateCheckSettled net) \/
  (checkingUpdate (handle Constants android ev s) = checkingUpdate s /\
   updateRequired (handle Constants android ev s) = updateRequired s /\
   updateInfo (handle Constants android ev s) = updateInfo s).
Proof.
  destruct ev; [left; eauto | right ..]; cbn [handle];
    try (repeat split; reflexivity).
  - unfold startUpdate. destruct android; cbn [negb]; [|repeat split].
    destruct (updateInfo s) as [[rv [u|]]|] eqn:E;
      [destruct (String.eqb u "")|..]; cbn; rewrite ?E; repeat split.
  - unfold onDownloadProgress.
    match goal with |- context [if ?b then _ else _] => destruct b end;
      repeat split.
  - destruct r; repeat split.
Qed.

Lemma check_absent_tag (secret : string) (net : Request -> Result Response)
  (s : ShellState) :
  updateRequired (fst (run net (updateCheck true secret "" s))) = false.
Proof. reflexivity. Qed.

Lemma check_pass_verified (secret tag : string)
  (net : Request -> Result Response) (s : ShellState) :
  tag <> "" ->
  updateRequired (fst (run net (updateCheck true secret tag s))) = false ->
  exists info,
    updateInfo (fst (run net (updateCheck true secret tag s))) = Some info /\
    (requiredVersion info = None \/ requiredVersion info = Some tag).
Proof.
  intros Htag. rewrite updateCheck_present by assumption. cbn [fst].
  destruct (fst (run net (fetchUpdateInfo secret))) as [info|e] eqn:F;
    unfold settled; [|discriminate].
  cbn. intros Hreq. exists info. split; [reflexivity|].
  destruct (fetched_info_shape secret net info F) as [_ Hv].
  destruct (requiredVersion info) as [v|]; [right|now left].
  destruct (Hv v eq_refl) as [Hn Hne].
  rewrite (eqb_empty_false _ Hne), Hn, (eqb_empty_false _ Hne) in Hreq.
  cbn in Hreq. apply negb_false_iff, String.eqb_eq in Hreq. now subst.
Qed.

End ShellFacts.

(** X10. Once the gate has left CHECKING it never moves again: no event
    that can occur changes the verdict or the stored update info.  A shell
    in REQUIRED stays blocked until it is restarted. *)
Theorem gate_is_terminal (Constants : JsVal) (android : bool)
  (ev : Event) (s : ShellState) :
  checkingUpdate s = false -> enabled ev s = true ->
  gate (handle Constants android ev s) = gate s /\
  updateInfo (handle Constants android ev s) = updateInfo s.
Proof.
  intros Hc Hen.
  destruct (handle_keeps_gate Constants android ev s) as [[net ->] | (A & B & C)].
  - cbn in Hen. congruence.
  - unfold gate. now rewrite A, B, C.
Qed.

Lemma gate_is_terminal_witness :
  let s := fst (startup (releaseBuild "v1.2.0" "") (answering 500 (Ok JNull))) in
  gate (handle (releaseBuild "v1.2.0" "") true StartUpdate s) = REQUIRED.
Proof.
  intros s.
  rewrite (proj1 (gate_is_terminal (releaseBuild "v1.2.0" "") true StartUpdate s
                    eq_refl eq_refl)).
  reflexivity.
Defined.

Lemma blocked_has_tag (Constants : JsVal) (android : bool) (s : ShellState) :
  reachable Constants android s ->
  updateRequired s = true -> localReleaseTag Constants <> "".
Proof.
  intros R U. induction R as [|s ev R IH Hen]; [discriminate|].
  destruct (handle_keeps_gate Constants android ev s) as [[net ->] | (_ & B & _)].
  - cbn [handle] in U. intros E. rewrite E in U.
    now rewrite check_absent_tag in U.
  - apply IH. congruence.
Qed.

(** X11. The shell is never blocked without a local release tag: in every
    reachable state with the gate in REQUIRED the build carries a tag. *)
Theorem required_needs_local_tag (Constants : JsVal) (android : bool)
  (s : ShellState) :
  reachable Constants android s ->
  gate s = REQUIRED -> localReleaseTag Constants <> "".
Proof.
  intros R G. apply (blocked_has_tag Constants android s R).
  unfold gate in G. destruct (checkingUpdate s), (updateRequired s);
    congruence.
Qed.

Lemma required_needs_local_tag_witness :
  localReleaseTag (releaseBuild "v1.2.0" "") <> "".
Proof.
  apply (required_needs_local_tag (releaseBuild "v1.2.0" "") true
           (handle (releaseBuild "v1.2.0" "") true
              (UpdateCheckSettled (answering 500 (Ok JNull))) initialState)).
  - apply reach_step; [apply reach_init | reflexivity].
  - reflexivity.
Defined.

(** X12. The embedded browser is shown only after the check has passed or
    was not applicable: whenever it is mounted in a reachable state, either
    the build has no local tag, or update info from a successful fetch is
    stored whose required version is absent or equal to the local tag. *)
Theorem browser_only_when_verified (Constants : JsVal) (android : bool)
  (s : ShellState) :
  reachable Constants android s ->
  webViewMounted s = true ->
  localReleaseTag Constants = "" \/
  exists info,
    updateInfo s = Some info /\
    (requiredVersion info = None \/
     requiredVersion info = Some (localReleaseTag Constants)).
Proof.
  intros R M.
  assert (G : checkingUpdate s = false /\ updateRequired s = false).
  { unfold webViewMounted, renderMain in M.
    destruct (hasError s), (checkingUpdate s), (updateRequired s);
      cbn in M; try discriminate; auto. }
  clear M. destruct G as [Gc Gr].
  induction R as [|s ev R IH Hen]; [discriminate|].
  destruct (handle_keeps_gate Constants android ev s)
    as [[net ->] | (A & B & C)].
  - cbn [handle] in *.
    destruct (String.eqb_spec (localReleaseTag Constants) "") as [E|E];
      [now left | right].
    now apply (check_pass_verified (clientSecret Constants) _ net s E).
  - rewrite C. apply IH; congruence.
Qed.

Lemma browser_only_when_verified_witness :
  let Constants := releaseBuild "v1.2.0" "" in
  let s := handle Constants true
             (UpdateCheckSettled
                (answering 200 (Ok (JObj [("requiredVersion", JStr "1.2.0")]))))
             initialState in
  localReleaseTag Constants = "" \/
  exists info,
    updateInfo s = Some info /\
    (requiredVersion info = None \/
     requiredVersion info = Some (localReleaseTag Constants)).
Proof.
  intros Constants s.
  apply (browser_only_when_verified Constants true s).
  - apply reach_step; [apply reach_init | reflexivity].
  - reflexivity.
Defined.

Lemma download_invariant (Constants : JsVal) (android : bool)
  (s : ShellState) :
  reachable Constants android s ->
  downloadingUpdate s = true ->
  (checkingUpdate s = false /\ updateRequired s = true) /\
  android = true /\
  exists info u, updateInfo s = Some info /\ apkUrl info = Some u /\ u <> "".
Proof.
  intros R.
  induction R as [|s ev R IH Hen]; [discriminate|].
  destruct ev; cbn [handle enabled] in *; try exact IH.
  - destruct (updateCheck_keeps_download true (clientSecret Constants)
                (localReleaseTag Constants) net s) as [-> _].
    intros D. destruct (IH D) as ((A & _) & _). congruence.
  - unfold renderGate in Hen. unfold startUpdate.
    destruct (checkingUpdate s) eqn:Hc; [discriminate|].
    destruct (updateRequired s) eqn:Hr; [|discriminate].
    apply negb_true_iff in Hen.
    destruct android; cbn [negb]; [|congruence].
    destruct (updateInfo s) as [[rv [u|]]|] eqn:Hi; cbn; try congruence.
    destruct (String.eqb_spec u "") as [->|Hu]; cbn; [congruence|].
    rewrite Hc, Hr, Hi. intros _. repeat split.
    exists {| requiredVersion := rv; apkUrl := Some u |}, u. auto.
  - unfold onDownloadProgress.
    match goal with |- context [if ?b then _ else _] => destruct b end;
      exact IH.
  - destruct r; discriminate.
Qed.

(** X13. A download is in flight only in REQUIRED, on Android, and with a
    non-empty installer URL in the stored update info. *)
Theorem download_only_when_required (Constants : JsVal) (android : bool)
  (s : ShellState) :
  reachable Constants android s ->
  downloadingUpdate s = true ->
  gate s = REQUIRED /\ android = true /\
  exists info u, updateInfo s = Some info /\ apkUrl info = Some u /\ u <> "".
Proof.
  intros R D.
  destruct (download_invariant Constants android s R D) as ((A & B) & C).
  split; [|exact C]. unfold gate. now rewrite A, B.
Qed.

Lemma download_only_when_required_witness :
  let Constants := releaseBuild "v1.2.0" "" in
  let net := answering 200 (Ok (JObj [("requiredVersion", JStr "1.3.0");
                                      ("apkUrl", JStr "https://example.com/a.apk")])) in
  let s := handle Constants true StartUpdate
             (handle Constants true (UpdateCheckSettled net) initialState) in
  downloadingUpdate s = true /\ gate s = REQUIRED.
Proof.
  intros Constants net s. split; [reflexivity|].
  apply (download_only_when_required Constants true s); [|reflexivity].
  apply reach_step; [|reflexivity].
  apply reach_step; [apply reach_init | reflexivity].
Defined.

(** X14. The download progress is always a fraction with a positive
    denominator: a progress event without a positive expected total is
    ignored. *)
Theorem progress_denominator_positive (Constants : JsVal) (android : bool)
  (s : ShellState) :
  reachable Constants android s -> (0 < snd (downloadProgress s))%Z.
Proof.
  induction 1 as [|s ev R IH Hen]; [reflexivity|].
  destruct ev; cbn [handle]; try exact IH.
  - now destruct (updateCheck_keeps_download true (clientSecret Constants)
                    (localReleaseTag Constants) net s) as [_ ->].
  - unfold startUpdate. destruct android; cbn [negb]; [|exact IH].
    destruct (updateInfo s) as [[rv [u|]]|]; try exact IH.
    destruct (String.eqb u ""); [exact IH | reflexivity].
  - unfold onDownloadProgress.
    destruct (Js.getProp p "totalBytesExpectedToWrite") as [| |b|n|t|l|l];
      try exact IH.
    destruct (Z.ltb_spec 0 n); [assumption | exact IH].
  - destruct r; exact IH.
Qed.

Lemma progress_denominator_positive_witness :
  let Constants := releaseBuild "v1.2.0" "" in
  let net := answering 200 (Ok (JObj [("requiredVersion", JStr "1.3.0");
                                      ("apkUrl", JStr "https://example.com/a.apk")])) in
  let s := handle Constants true
             (DownloadProgress (JObj [("totalBytesExpectedToWrite", JNum 0);
                                      ("totalBytesWritten", JNum 10)]))
             (handle Constants true StartUpdate
                (handle Constants true (UpdateCheckSettled net) initialState)) in
  downloadProgress s = (0, 1)%Z /\ (0 < snd (downloadProgress s))%Z.
Proof.
  intros Constants net s. split; [reflexivity|].
  apply (progress_denominator_positive Constants true s).
  apply reach_step; [|reflexivity].
  apply reach_step; [|reflexivity].
  apply reach_step; [apply reach_init | reflexivity].
Defined.

(** X15. Retry always brings the browser back: from any reachable state
    that shows the error screen, pressing Retry mounts the embedded browser
    again, with the loading overlay on and the error detail cleared. *)
Theorem retry_restores_browser (Constants : JsVal) (android : bool)
  (s : ShellState) :
  reachable Constants android s ->
  hasError s = true ->
  webViewMounted (retry s) = true /\ loading (retry s) = true /\
  errorDetail (retry s) = "".
Proof.
  intros R E. pose proof (error_only_after_pass Constants android s R E) as G.
  unfold gate in G. unfold webViewMounted, renderMain, retry. cbn.
  destruct (checkingUpdate s), (updateRequired s); try discriminate.
  repeat split.
Qed.

Lemma retry_restores_browser_witness :
  let s := handle (JObj []) true (HttpError JUndefined)
             (handle (JObj []) true
                (UpdateCheckSettled (answering 200 (Ok JNull))) initialState) in
  webViewMounted s = false /\ webViewMounted (retry s) = true.
Proof.
  intros s. split; [reflexivity|].
  apply (retry_restores_browser (JObj []) true s); [|reflexivity].
  apply reach_step; [|reflexivity].
  apply reach_step; [apply reach_init | reflexivity].
Defined.

(** ** Error details *)

Lemma fold_join_nonempty (rest : list string) (acc : string) :
  acc <> "" -> fold_left (fun a q => a ++ " | " ++ q) rest acc <> "".
Proof.
  revert acc. induction rest as [|q rest IH]; intros acc H; cbn; [exact H|].
  apply IH. destruct acc; [congruence | discriminate].
Qed.

Lemma joinParts_empty (parts : list string) :
  joinParts parts = "" <-> forall p, In p parts -> p = "".
Proof.
  unfold joinParts.
  destruct (filter (fun p => negb (String.eqb p "")) parts) as [|p rest] eqn:F.
  - split; [intros _ p Hp | reflexivity].
    destruct (String.eqb_spec p ""); [assumption|].
    assert (In p []) as [].
    rewrite <- F. apply filter_In. split; [assumption|].
    now apply negb_true_iff, String.eqb_neq.
  - assert (Hp : In p (filter (fun p => negb (String.eqb p "")) parts))
      by (rewrite F; now left).
    apply filter_In in Hp. destruct Hp as [Hin Hne].
    apply negb_true_iff, String.eqb_neq in Hne.
    split.
    + intros H. now elim (fold_join_nonempty rest p Hne).
    + intros H. now elim Hne; apply H.
Qed.

Lemma labelled_empty (label value : string) :
  label <> "" -> (labelled label value = "" <-> value = "").
Proof.
  intros Hl. unfold labelled.
  destruct (String.eqb_spec value ""); [tauto|].
  split; [|tauto]. destruct label; [congruence | discriminate].
Qed.

(** X16. The error detail shown under the error screen is empty exactly
    when the event carries no numeric code (or status), no description and
    no URL: parts that are missing are skipped, and any part that is present
    makes the detail non-empty. *)
Theorem error_detail_empty_iff (e : JsVal) :
  let ne := Js.getProp e "nativeEvent" in
  (webErrorDetail e = "" <->
   numberField ne "code" = "" /\ stringField ne "description" = "" /\
   stringField ne "url" = "") /\
  (httpErrorDetail e = "" <->
   numberField ne "statusCode" = "" /\ stringField ne "description" = "" /\
   stringField ne "url" = "").
Proof.
  cbv zeta. unfold webErrorDetail, httpErrorDetail.
  split; rewrite joinParts_empty; split.
  - intros H.
    repeat split; (eapply labelled_empty; [|apply H; cbn; eauto]); discriminate.
  - intros (A & B & C) p [<-|[<-|[<-|[]]]];
      apply labelled_empty; (discriminate || assumption).
  - intros H.
    repeat split; (eapply labelled_empty; [|apply H; cbn; eauto]); discriminate.
  - intros (A & B & C) p [<-|[<-|[<-|[]]]];
      apply labelled_empty; (discriminate || assumption).
Qed.

(** ** More of the navigation policy *)

Section PolicyFacts.

Variable parseURL : string -> option URL.


Lemma isExternalToBase_false (url : string) (u : URL) :
  parseURL url = Some u ->
  arrayIncludes ALLOWED_HOSTS (host u) = true \/
  (baseHost parseURL <> "" /\ host u = baseHost parseURL) ->
  isExternalToBase parseURL url = false.
Proof.
  intros Hp H. unfold isExternalToBase. rewrite Hp.
  destruct (arrayIncludes ALLOWED_HOSTS (host u)); [reflexivity|].
  destruct H as [H | [Hb ->]]; [discriminate|].
  now rewrite (eqb_empty_false _ Hb), String.eqb_refl.
Qed.

Lemma partnerVeto_false (url : string) (u : URL) :
  parseURL url = Some u ->
  toLowerCase (host u) <> "open.spotify.com" ->
  toLowerCase (host u) <> "spotify.com" ->
  partnerVeto parseURL url = false.
Proof.
  intros Hp H1 H2. unfold partnerVeto. rewrite Hp.
  apply String.eqb_neq in H1, H2. now rewrite H1, H2.
Qed.

(** The verdict and the dispatches go together. *)
Lemma decision_shape (req : JsVal) :
  onShouldStartLoadWithRequest parseURL req = allow \/
  onShouldStartLoadWithRequest parseURL req = veto (requestUrl req).
Proof.
  unfold onShouldStartLoadWithRequest.
  repeat match goal with
         | |- context [if ?b then _ else _] => destruct b
         end; auto.
Qed.

End PolicyFacts.

(** X17. A request from a sub-frame to any http or https URL is allowed in
    place without a dispatch, whatever its host and whether or not the URL
    parses. *)
Theorem subframe_web_allowed (parseURL : string -> option URL) (req : JsVal) :
  requestIsTopFrame req = false ->
  startsWith (requestUrl req) "http://"
    || startsWith (requestUrl req) "https://" = true ->
  onShouldStartLoadWithRequest parseURL req = allow.
Proof.
  intros Hf Hw. rewrite decide_web by assumption. now rewrite Hf.
Qed.

Lemma subframe_web_allowed_witness :
  onShouldStartLoadWithRequest PlainURL.parse
    (request "https://ads.example.com/frame" (JBool false)) = allow.
Proof.
  exact (subframe_web_allowed PlainURL.parse
           (request "https://ads.example.com/frame" (JBool false))
           eq_refl eq_refl).
Defined.



(** X19. An http or https request whose host is on the allow-list or is
    the base host, and is not the partner host, is allowed in place at any
    frame level. *)
Theorem trusted_host_allowed (parseURL : string -> option URL)
  (req : JsVal) (u : URL) :
  startsWith (requestUrl req) "http://"
    || startsWith (requestUrl req) "https://" = true ->
  parseURL (requestUrl req) = Some u ->
  arrayIncludes ALLOWED_HOSTS (host u) = true \/
  (baseHost parseURL <> "" /\ host u = baseHost parseURL) ->
  toLowerCase (host u) <> "open.spotify.com" ->
  toLowerCase (host u) <> "spotify.com" ->
  onShouldStartLoadWithRequest parseURL req = allow.
Proof.
  intros Hw Hp Ha H1 H2. rewrite decide_web by assumption.
  rewrite (isExternalToBase_false parseURL _ u Hp Ha),
          (partnerVeto_false parseURL _ u Hp H1 H2).
  now rewrite !andb_false_r.
Qed.

Lemma trusted_host_allowed_witness :
  onShouldStartLoadWithRequest PlainURL.parse
    (request "https://accounts.spotify.com/login" (JBool true)) = allow.
Proof.
  exact (trusted_host_allowed PlainURL.parse
           (request "https://accounts.spotify.com/login" (JBool true))
           {| host := "accounts.spotify.com"; pathname := "/login" |}
           eq_refl eq_refl (or_introl eq_refl)
           ltac:(discriminate) ltac:(discriminate)).
Defined.

(** X20. A URL that begins with none of the seven prefixes the policy
    knows is allowed in place without a dispatch, at any frame level.  The
    prefix tests are case-sensitive, so this includes a URL written with an
    upper-case scheme. *)
Theorem unknown_scheme_allowed (parseURL : string -> option URL)
  (req : JsVal) :
  startsWith (requestUrl req) "spotify:"
    || startsWith (requestUrl req) "intent:" = false ->
  startsWith (requestUrl req) "mailto:" || startsWith (requestUrl req) "tel:"
    || startsWith (requestUrl req) "sms:" = false ->
  startsWith (requestUrl req) "http://"
    || startsWith (requestUrl req) "https://" = false ->
  onShouldStartLoadWithRequest parseURL req = allow.
Proof.
  intros H1 H2 H3. unfold onShouldStartLoadWithRequest.
  rewrite H1, H2, H3. now destruct (String.eqb (requestUrl req) "").
Qed.

Lemma unknown_scheme_allowed_witness :
  onShouldStartLoadWithRequest PlainURL.parse
    (request "about:blank" (JBool true)) = allow /\
  onShouldStartLoadWithRequest PlainURL.parse
    (request "HTTPS://example.com/x" (JBool true)) = allow.
Proof.
  split.
  - exact (unknown_scheme_allowed PlainURL.parse
             (request "about:blank" (JBool true)) eq_refl eq_refl eq_refl).
  - exact (unknown_scheme_allowed PlainURL.parse
             (request "HTTPS://example.com/x" (JBool true))
             eq_refl eq_refl eq_refl).
Defined.

(** X21. A URL that begins with [spotify:] or [intent:] is vetoed and
    dispatched externally once, at any frame level and without being
    parsed. *)
Theorem app_schemes_vetoed (parseURL : string -> option URL) (req : JsVal) :
  startsWith (requestUrl req) "spotify:"
    || startsWith (requestUrl req) "intent:" = true ->
  onShouldStartLoadWithRequest parseURL req = veto (requestUrl req).
Proof.
  intros H. unfold onShouldStartLoadWithRequest. rewrite H.
  destruct (requestUrl req); [discriminate | reflexivity].
Qed.

Lemma app_schemes_vetoed_witness :
  onShouldStartLoadWithRequest PlainURL.parse
    (request "spotify:track:123" (JBool false)) = veto "spotify:track:123".
Proof.
  exact (app_schemes_vetoed PlainURL.parse
           (request "spotify:track:123" (JBool false)) eq_refl).
Defined.

(** X22. A request without a usable URL (no request object, no [url]
    field, a [url] that is not a string, or the empty string) is allowed in
    place, and neither the policy nor the listener dispatches anything. *)
Theorem missing_url_allowed (parseURL : string -> option URL) (req : JsVal) :
  (forall s, Js.getProp req "url" = JStr s -> s = "") ->
  onShouldStartLoadWithRequest parseURL req = allow /\
  onNavigationStateChange req = [].
Proof.
  intros H.
  assert (E : requestUrl req = "").
  { unfold requestUrl. destruct (Js.getProp req "url"); try reflexivity.
    now apply H. }
  unfold onShouldStartLoadWithRequest, onNavigationStateChange.
  now rewrite E.
Qed.

Lemma missing_url_allowed_witness :
  onShouldStartLoadWithRequest PlainURL.parse JNull = allow /\
  onNavigationStateChange (JObj [("url", JNum 7)]) = [].
Proof.
  split.
  - apply (missing_url_allowed PlainURL.parse JNull). discriminate.
  - apply (missing_url_allowed PlainURL.parse (JObj [("url", JNum 7)])).
    discriminate.
Defined.

(** X23. Verdict and dispatch go together: a request that is allowed in
    place dispatches nothing, and a request that is vetoed dispatches
    exactly its own URL, once. *)
Theorem veto_iff_one_dispatch (parseURL : string -> option URL) (req : JsVal) :
  dispatched (onShouldStartLoadWithRequest parseURL req) =
    if allowInPlace (onShouldStartLoadWithRequest parseURL req)
    then []
    else [requestUrl req].
Proof.
  now destruct (decision_shape parseURL req) as [-> | ->].
Qed.

(** X24. The listener on completed navigations dispatches at most one URL,
    and only one that the policy vetoes: it never hands off a page that the
    policy lets load in place. *)
Theorem listener_within_policy (parseURL : string -> option URL)
  (nav : JsVal) :
  onNavigationStateChange nav = [] \/
  (onNavigationStateChange nav = [requestUrl nav] /\
   onShouldStartLoadWithRequest parseURL nav = veto (requestUrl nav)).
Proof.
  unfold onNavigationStateChange, onShouldStartLoadWithRequest.
  destruct (String.eqb (requestUrl nav) ""); [now left|].
  destruct (startsWith (requestUrl nav) "mailto:"
            || startsWith (requestUrl nav) "tel:"
            || startsWith (requestUrl nav) "sms:"); [right | now left].
  now destruct (startsWith (requestUrl nav) "spotify:"
                || startsWith (requestUrl nav) "intent:").
Qed.

(** X25. Sub-frames are never treated more strictly than the top level:
    a URL that is allowed in place as a top-level navigation is allowed in
    place at any frame level. *)
Theorem top_level_is_strictest (parseURL : string -> option URL)
  (url : string) (frame : JsVal) :
  allowInPlace (onShouldStartLoadWithRequest parseURL (request url (JBool true)))
    = true ->
  allowInPlace (onShouldStartLoadWithRequest parseURL (request url frame))
    = true.
Proof.
  unfold onShouldStartLoadWithRequest.
  change (requestUrl (request url (JBool true))) with url.
  change (requestUrl (request url frame)) with url.
  change (requestIsTopFrame (request url (JBool true))) with true.
  destruct (String.eqb url ""); [reflexivity|].
  destruct (startsWith url "spotify:" || startsWith url "intent:");
    [discriminate|].
  destruct (startsWith url "mailto:" || startsWith url "tel:"
            || startsWith url "sms:"); [discriminate|].
  destruct (startsWith url "http://" || startsWith url "https://");
    [|reflexivity].
  cbn [andb].
  destruct (partnerVeto parseURL url); [discriminate|].
  destruct (isExternalToBase parseURL url); [discriminate|].
  now rewrite !andb_false_r.
Qed.

Lemma top_level_is_strictest_witness :
  allowInPlace (onShouldStartLoadWithRequest PlainURL.parse
                  (request "https://open.spotify.com/embed/track/1" JUndefined))
  = true.
Proof.
  exact (top_level_is_strictest PlainURL.parse
           "https://open.spotify.com/embed/track/1" JUndefined eq_refl).
Defined.

(** X26. The home page loads in place: when the base address parses to a
    non-empty host that is not the partner host, a top-level request for it
    is allowed. *)
Theorem home_page_loads_in_place (parseURL : string -> option URL) (u : URL)
  (frame : JsVal) :
  parseURL BASE_URL = Some u ->
  host u <> "" ->
  toLowerCase (host u) <> "open.spotify.com" ->
  toLowerCase (host u) <> "spotify.com" ->
  onShouldStartLoadWithRequest parseURL (request BASE_URL frame) = allow.
Proof.
  intros Hp Hne H1 H2.
  assert (Hb : baseHost parseURL = host u) by (unfold baseHost; now rewrite Hp).
  rewrite decide_web by reflexivity.
  change (requestUrl (request BASE_URL frame)) with BASE_URL.
  rewrite (partnerVeto_false parseURL _ u Hp H1 H2).
  rewrite (isExternalToBase_false parseURL _ u Hp).
  - now rewrite !andb_false_r.
  - right. rewrite Hb. now split.
Qed.

Lemma home_page_loads_in_place_witness :
  onShouldStartLoadWithRequest PlainURL.parse (request BASE_URL (JBool true))
  = allow.
Proof.
  exact (home_page_loads_in_place PlainURL.parse
           {| host := "maybe-someone-saw.vercel.app"; pathname := "/" |}
           (JBool true) eq_refl ltac:(discriminate)
           ltac:(discriminate) ltac:(discriminate)).
Defined.

(** ** The oldest variant against the current one *)

(** X27. Apart from the application schemes, which the oldest variant does
    not know, the current policy only relaxes the oldest one: with a base
    host that is not the partner host, every request the current policy
    vetoes is vetoed by the oldest variant too. *)
Theorem legacy_vetoes_more (parseURL : string -> option URL) (req : JsVal) :
  baseHost parseURL <> "" ->
  toLowerCase (baseHost parseURL) <> "open.spotify.com" ->
  toLowerCase (baseHost parseURL) <> "spotify.com" ->
  startsWith (requestUrl req) "spotify:"
    || startsWith (requestUrl req) "intent:" = false ->
  allowInPlace (onShouldStartLoadWithRequest parseURL req) = false ->
  Legacy.onShouldStartLoadWithRequest parseURL req = veto (requestUrl req).
Proof.
  intros Hb H1 H2 Happ.
  unfold onShouldStartLoadWithRequest, Legacy.onShouldStartLoadWithRequest.
  rewrite Happ.
  destruct (String.eqb (requestUrl req) ""); [discriminate|].
  destruct (startsWith (requestUrl req) "mailto:"
            || startsWith (requestUrl req) "tel:"
            || startsWith (requestUrl req) "sms:"); [reflexivity|].
  destruct (startsWith (requestUrl req) "http://"
            || startsWith (requestUrl req) "https://"); [|discriminate].
  assert (L : partnerVeto parseURL (requestUrl req) = true \/
              isExternalToBase parseURL (requestUrl req) = true ->
              Legacy.isExternalToBase parseURL (requestUrl req) = true).
  { unfold partnerVeto, isExternalToBase, Legacy.isExternalToBase.
    destruct (parseURL (requestUrl req)) as [u|]; [|intros [?|?]; discriminate].
    rewrite (eqb_empty_false _ Hb). cbn [negb andb].
    destruct (String.eqb_spec (host u) (baseHost parseURL)) as [E|E];
      [|reflexivity].
    rewrite E. apply String.eqb_neq in H1, H2. rewrite H1, H2.
    destruct (arrayIncludes ALLOWED_HOSTS (baseHost parseURL));
      intros [?|?]; discriminate. }
  destruct (requestIsTopFrame req); cbn [andb]; [|discriminate].
  destruct (partnerVeto parseURL (requestUrl req)) eqn:P.
  - intros _. now rewrite L by auto.
  - destruct (isExternalToBase parseURL (requestUrl req)) eqn:X;
      [|discriminate].
    intros _. now rewrite L by auto.
Qed.

Lemma legacy_vetoes_more_witness :
  Legacy.onShouldStartLoadWithRequest PlainURL.parse
    (request "https://open.spotify.com/track/123" (JBool true))
  = veto "https://open.spotify.com/track/123".
Proof.
  assert (B : baseHost PlainURL.parse = "maybe-someone-saw.vercel.app")
    by (vm_compute; reflexivity).
  apply (legacy_vetoes_more PlainURL.parse
           (request "https://open.spotify.com/track/123" (JBool true)));
    try (rewrite B; vm_compute; discriminate); vm_compute; reflexivity.
Defined.

(** ** The rest of the shell *)

(** X28. The update endpoint is built from the base address with one
    trailing slash removed: [dropTrailingSlash] removes exactly one slash at
    the end of a string and changes nothing else. *)
Theorem dropTrailingSlash_spec (s : string) :
  dropTrailingSlash (s ++ "/") = s /\
  (dropTrailingSlash s = s \/ s = dropTrailingSlash s ++ "/").
Proof.
  split.
  - induction s as [|c s IH]; [reflexivity|].
    cbn [append dropTrailingSlash]. rewrite IH.
    destruct s; reflexivity.
  - induction s as [|c s IH]; [now left|].
    cbn [dropTrailingSlash]. destruct s as [|d s].
    + destruct (Ascii.eqb_spec c "/") as [->|]; [now right | now left].
    + destruct IH as [IH | IH]; [left | right]; cbn [append]; congruence.
Qed.

(** X29. The external dispatcher asks the operating system exactly once
    whether the URL can be opened, and opens a URL only if it is the one it
    was given and the system answered that it can: a negative answer or a
    failing query opens nothing. *)
Theorem openExternal_opens_only_supported (canOpen : string -> Result bool)
  (url : string) :
  count_occ OsCall_eq_dec (openExternal canOpen url) (CanOpenURL url) = 1 /\
  (forall u, In (OpenURL u) (openExternal canOpen url)
             <-> u = url /\ canOpen url = Ok true).
Proof.
  rewrite openExternal_queries_once. cbn [count_occ].
  destruct (OsCall_eq_dec (CanOpenURL url) (CanOpenURL url)) as [_|N];
    [|congruence].
  destruct (canOpen url) as [[|]|err]; cbn.
  - destruct (OsCall_eq_dec (OpenURL url) (CanOpenURL url)) as [E|_];
      [discriminate E|].
    split; [reflexivity|]. intros u. split.
    + intros [H|[H|[]]]; [discriminate H | injection H as <-; auto].
    + intros [-> _]. auto.
  - split; [reflexivity|]. intros u. split.
    + intros [H|[]]. discriminate H.
    + intros [_ H]. discriminate H.
  - split; [reflexivity|]. intros u. split.
    + intros [H|[]]. discriminate H.
    + intros [_ H]. discriminate H.
Qed.

(** X30. Whenever a download is in flight the installer file is named
    after the local release tag: the fallback name [latest] is never used,
    because a download can only start when the build carries a tag. *)
Theorem installer_named_after_tag (Constants : JsVal) (android : bool)
  (s : ShellState) (baseDir : string) :
  reachable Constants android s ->
  downloadingUpdate s = true ->
  installerPath baseDir (localReleaseTag Constants)
  = baseDir ++ "update-" ++ localReleaseTag Constants ++ ".apk".
Proof.
  intros R D.
  destruct (download_invariant Constants android s R D) as ((_ & U) & _).
  pose proof (blocked_has_tag Constants android s R U) as T.
  unfold installerPath. now rewrite (eqb_empty_false _ T).
Qed.

Lemma installer_named_after_tag_witness :
  let Constants := releaseBuild "v1.2.0" "" in
  let net := answering 200 (Ok (JObj [("requiredVersion", JStr "1.3.0");
                                      ("apkUrl", JStr "https://example.com/a.apk")])) in
  installerPath (downloadDir None (Some "file:///cache/"))
    (localReleaseTag Constants)
  = "file:///cache/update-v1.2.0.apk".
Proof.
  intros Constants net.
  rewrite (installer_named_after_tag Constants true
             (handle Constants true StartUpdate
                (handle Constants true (UpdateCheckSettled net) initialState))
             (downloadDir None (Some "file:///cache/"))).
  - reflexivity.
  - apply reach_step; [|reflexivity].
    apply reach_step; [apply reach_init | reflexivity].
  - reflexivity.
Defined.
